(** * The google_compute_forwarding_rule resource adapter

    A shallow embedding of [google/resource_compute_forwarding_rule.go]:
    the resource definition and its four lifecycle handlers, written over
    - the plugin SDK's [schema.ResourceData] (attribute levels, resource id,
      partial mode),
    - the remote Compute API, seen as transitions on an abstract cloud
      state, every call being recorded in a ghost trace,
    - the provider helpers that live in other files of the package, which
      are taken as parameters.

    Go's [error] results are modelled by a state-preserving error monad:
    a handler that returns a non-nil error still leaves its writes to
    [d] behind, exactly as a Go function mutating [*schema.ResourceData]
    does. The [log.Printf] lines only write to the provider's debug log
    and are left out. *)

From stdpp Require Import base option list strings gmap.
From Stdlib Require Import String.

Local Open Scope string_scope.

(** ** Go errors *)

(** [fmt.Errorf] builds a plain error value; the API client returns
    [*googleapi.Error] values, which carry an HTTP status code next to the
    text they render to. *)
Inductive error : Type :=
| ErrorString (text : string)
| GoogleApiError (code : Z) (text : string).

(** The [Error()] method, which is what the [%s] verb of [fmt.Errorf]
    prints. *)
Definition Error (e : error) : string :=
  match e with
  | ErrorString text => text
  | GoogleApiError _ text => text
  end.

(** [fmt.Errorf(prefix + "%s", err)]. *)
Definition Errorf (prefix : string) (err : error) : error :=
  ErrorString (prefix ++ Error err).

(** A Go result pair [(v, err)]: either a value or a non-nil error. *)
Inductive Res (A : Type) : Type :=
| Ok (a : A)
| Err (e : error).
Arguments Ok {A} a.
Arguments Err {A} e.

(** ** The API objects this file builds and reads *)

Module computeBeta.
(** [computeBeta.ForwardingRule], restricted to the fields this file
    writes in Create or reads in Read. *)
Record ForwardingRule : Type := {
  BackendService : string;
  IPAddress : string;
  IPProtocol : string;
  Description : string;
  LoadBalancingScheme : string;
  Name : string;
  Network : string;
  NetworkTier : string;
  PortRange : string;
  Ports : list string;
  Subnetwork : string;
  Target : string;
  SelfLink : string
}.

(** The long-running operation handle; it is only passed on to the
    wait helper. *)
Record Operation : Type := { OpName : string }.
End computeBeta.

Module compute.
Record TargetReference : Type := { Target : string }.
Record Operation : Type := { OpName : string }.
End compute.

(** ** The plugin SDK: schemas and resource data *)

Module schema.

Inductive ValueType : Type := TypeString | TypeSet.

(** The function-valued schema fields name helpers of the package or of
    the SDK; the resource definition only stores them. *)
Inductive SchemaDiffSuppressFunc : Type :=
| compareSelfLinkRelativePaths
| caseDiffSuppress
| compareSelfLinkOrResourceName
| portRangeDiffSuppress.

Inductive SchemaValidateFunc : Type :=
| StringInSlice (valid : list string) (ignoreCase : bool).

Inductive SchemaSetFunc : Type := HashString.

Record Schema : Type := {
  Type_ : ValueType;
  Elem : option ValueType;
  Required : bool;
  Optional : bool;
  ForceNew : bool;
  Computed : bool;
  Default : option string;
  DiffSuppressFunc : option SchemaDiffSuppressFunc;
  ValidateFunc : option SchemaValidateFunc;
  Set_ : option SchemaSetFunc;
  MaxItems : nat
}.

(** Values held by attributes and passed to [d.Set]. A [*schema.Set] of
    strings hashed by [HashString] is a finite set of strings; a Go
    [[]string] handed to [d.Set] is a [VList]. *)
Inductive Value : Type :=
| VString (s : string)
| VList (l : list string)
| VSet (X : gset string).

Definition zeroValue (t : ValueType) : Value :=
  match t with
  | TypeString => VString ""
  | TypeSet => VSet ∅
  end.

(** [schema.ResourceData]. [rd_state] is the prior state, [rd_diff] the
    planned values (state merged with the configuration diff) and
    [rd_set] what the handler itself wrote with [d.Set]. *)
Record ResourceData : Type := {
  rd_schema : gmap string Schema;
  rd_state : gmap string Value;
  rd_diff : gmap string Value;
  rd_set : gmap string Value;
  rd_id : string;
  rd_partial : bool;
  rd_partialMap : gset string
}.

(** One reader level: the stored value, or the zero value of the
    attribute's type. *)
Definition readLevel (d : ResourceData) (m : gmap string Value)
    (key : string) : Value :=
  match m !! key with
  | Some v => v
  | None =>
      match rd_schema d !! key with
      | Some s => zeroValue (Type_ s)
      | None => VString ""
      end
  end.

(** [d.Get(key)]: the handler's own writes shadow the planned values. *)
Definition Get (d : ResourceData) (key : string) : Value :=
  match rd_set d !! key with
  | Some v => v
  | None => readLevel d (rd_diff d) key
  end.

(** [d.GetChange(key)] reads the state level and the diff level. *)
Definition GetChange (d : ResourceData) (key : string) : Value * Value :=
  (readLevel d (rd_state d) key, readLevel d (rd_diff d) key).

Global Instance Value_eq_dec : EqDecision Value.
Proof. solve_decision. Defined.

(** [d.HasChange(key)]. *)
Definition HasChange (d : ResourceData) (key : string) : bool :=
  let '(o, n) := GetChange d key in
  negb (bool_decide (o = n)).

(** The values of a schema type. *)
Definition hasType (v : Value) (t : ValueType) : bool :=
  match t, v with
  | TypeString, VString _ | TypeSet, VSet _ => true
  | _, _ => false
  end.

(** The SDK only ever stores, at any level, values of the schema type of
    their attribute. *)
Definition wellTyped (d : ResourceData) : Prop :=
  forall key v,
    rd_set d !! key = Some v \/ rd_diff d !! key = Some v \/
    rd_state d !! key = Some v ->
    exists s, rd_schema d !! key = Some s /\ hasType v (Type_ s) = true.

(** The type assertions [d.Get(key).(string)] and
    [d.Get(key).( *schema.Set)]. On a well-typed [d] and an attribute of
    the asserted type the first branch is the one taken ([GetString_exact]
    and [GetSet_exact] below), so the assertion cannot panic. *)
Definition GetString (d : ResourceData) (key : string) : string :=
  match Get d key with VString s => s | _ => "" end.

Definition GetSet (d : ResourceData) (key : string) : gset string :=
  match Get d key with VSet X => X | _ => ∅ end.

(** [( *schema.Set).List()] and [( *schema.Set).Len()]. *)
Definition List (X : gset string) : list string := elements X.
Definition Len (X : gset string) : nat := size X.

Definition Id (d : ResourceData) : string := rd_id d.

Definition SetId (d : ResourceData) (v : string) : ResourceData :=
  {| rd_schema := rd_schema d; rd_state := rd_state d;
     rd_diff := rd_diff d; rd_set := rd_set d; rd_id := v;
     rd_partial := rd_partial d; rd_partialMap := rd_partialMap d |}.

Definition writeSet (d : ResourceData) (key : string) (v : Value)
    : ResourceData :=
  {| rd_schema := rd_schema d; rd_state := rd_state d;
     rd_diff := rd_diff d; rd_set := <[key := v]> (rd_set d);
     rd_id := rd_id d; rd_partial := rd_partial d;
     rd_partialMap := rd_partialMap d |}.

(** [d.Set(key, value)]: the field writer converts the value to the
    attribute's schema type; a key outside the schema or a value of the
    wrong type is an error and writes nothing. *)
Definition d_Set (d : ResourceData) (key : string) (v : Value)
    : ResourceData * option error :=
  match rd_schema d !! key with
  | None => (d, Some (ErrorString ("Invalid address to set: " ++ key)))
  | Some s =>
      match Type_ s, v with
      | TypeString, VString _ => (writeSet d key v, None)
      | TypeSet, VSet _ => (writeSet d key v, None)
      | TypeSet, VList l => (writeSet d key (VSet (list_to_set l)), None)
      | _, _ => (d, Some (ErrorString (key ++ ": invalid value type")))
      end
  end.

(** [d.Partial(on)]: leaving partial mode forgets the partial keys. *)
Definition Partial (d : ResourceData) (on : bool) : ResourceData :=
  {| rd_schema := rd_schema d; rd_state := rd_state d;
     rd_diff := rd_diff d; rd_set := rd_set d; rd_id := rd_id d;
     rd_partial := on;
     rd_partialMap := if on then rd_partialMap d else ∅ |}.

(** [d.SetPartial(key)]. *)
Definition SetPartial (d : ResourceData) (key : string) : ResourceData :=
  {| rd_schema := rd_schema d; rd_state := rd_state d;
     rd_diff := rd_diff d; rd_set := rd_set d; rd_id := rd_id d;
     rd_partial := rd_partial d;
     rd_partialMap :=
       if rd_partial d then {[key]} ∪ rd_partialMap d
       else rd_partialMap d |}.

(** The SDK's [MaxItems] validation of a set attribute: a schema with
    [MaxItems > 0] accepts at most that many items. *)
Definition checkMaxItems (s : Schema) (v : Value) : bool :=
  match v with
  | VSet X => bool_decide (MaxItems s = 0 ∨ (Len X ≤ MaxItems s)%nat)
  | VList l =>
      bool_decide (MaxItems s = 0 ∨ (List.length l ≤ MaxItems s)%nat)
  | VString _ => true
  end.

(** The schema type of an attribute. *)
Definition typeOf (d : ResourceData) (key : string) : option ValueType :=
  Type_ <$> rd_schema d !! key.

(** A check of well-typedness that computes. *)
Definition typedLevel (d : ResourceData) (m : gmap string Value) : Prop :=
  map_Forall
    (fun key v =>
       match rd_schema d !! key with
       | Some s => hasType v (Type_ s)
       | None => false
       end = true) m.

(** A resource data the SDK's validation lets through: every attribute
    respects the [MaxItems] of its schema. *)
Definition accepted (d : ResourceData) : Prop :=
  map_Forall (fun key s => checkMaxItems s (Get d key) = true)
    (rd_schema d).

Inductive StateFunc : Type := ImportStatePassthrough.

Record ResourceImporter : Type := { State : StateFunc }.

(** [schema.Resource], over the type [H] of lifecycle handlers
    ([CreateFunc], [ReadFunc], [UpdateFunc] and [DeleteFunc] in the
    SDK). A Go function field left out of the literal is [nil]; the
    fields [Exists], [MigrateState] and [CustomizeDiff], which have
    function types of their own in the SDK and are never set here, are
    given the handler type. *)
Record Resource (H : Type) : Type := {
  Schema_ : gmap string Schema;
  Create : option H;
  Read : option H;
  Update : option H;
  Delete : option H;
  Exists : option H;
  MigrateState : option H;
  CustomizeDiff : option H;
  Importer : option ResourceImporter
}.
Arguments Schema_ {H} r.
Arguments Create {H} r.
Arguments Read {H} r.
Arguments Update {H} r.
Arguments Delete {H} r.
Arguments Exists {H} r.
Arguments MigrateState {H} r.
Arguments CustomizeDiff {H} r.
Arguments Importer {H} r.

End schema.

Import schema.

(** ** The remote API *)

(** The two generated clients, as transitions on the state [Cloud] of the
    remote project. [.Do()] either yields the response or an error. *)
Record BetaForwardingRulesService (Cloud : Type) : Type := {
  ForwardingRules_Insert :
    string -> string -> computeBeta.ForwardingRule ->
    Cloud -> Res computeBeta.Operation * Cloud;
  ForwardingRules_Get :
    string -> string -> string ->
    Cloud -> Res computeBeta.ForwardingRule * Cloud
}.
Arguments ForwardingRules_Insert {Cloud} _ _ _ _ _.
Arguments ForwardingRules_Get {Cloud} _ _ _ _ _.

Record ForwardingRulesService (Cloud : Type) : Type := {
  ForwardingRules_SetTarget :
    string -> string -> string -> compute.TargetReference ->
    Cloud -> Res compute.Operation * Cloud;
  ForwardingRules_Delete :
    string -> string -> string ->
    Cloud -> Res compute.Operation * Cloud
}.
Arguments ForwardingRules_SetTarget {Cloud} _ _ _ _ _ _.
Arguments ForwardingRules_Delete {Cloud} _ _ _ _ _.

(** Ghost trace: one event per request sent through a client, and one per
    wait on an operation. *)
Inductive ApiCall : Type :=
| InsertCall (project region : string) (frule : computeBeta.ForwardingRule)
| GetCall (project region name : string)
| SetTargetCall (project region name : string)
    (target_ref : compute.TargetReference)
| DeleteCall (project region name : string)
| SharedOperationWaitCall (op : computeBeta.Operation)
    (project activity : string)
| OperationWaitCall (op : compute.Operation) (project activity : string).

(** The requests that change the remote project. *)
Definition mutating (c : ApiCall) : bool :=
  match c with
  | InsertCall _ _ _ | SetTargetCall _ _ _ _ | DeleteCall _ _ _ => true
  | GetCall _ _ _ | SharedOperationWaitCall _ _ _
  | OperationWaitCall _ _ _ => false
  end.

Definition isSetTarget (c : ApiCall) : bool :=
  match c with SetTargetCall _ _ _ _ => true | _ => false end.

(** ** The rest of the package

    [Config], the field-value parsers, [getRegion], [getProject],
    [ConvertSelfLinkToV1], [handleNotFoundError] and the operation waits
    are declared in other files of the package; the handlers are verified
    for every implementation of them. The helpers that receive [d] and
    return a value only read it; [handleNotFoundError] may write to it. *)
Record Package (Cloud : Type) : Type := {
  Config : Type;
  clientComputeBeta : Config -> BetaForwardingRulesService Cloud;
  clientCompute : Config -> ForwardingRulesService Cloud;
  GlobalFieldValue : Type;
  RegionalFieldValue : Type;
  GlobalRelativeLink : GlobalFieldValue -> string;
  RegionalRelativeLink : RegionalFieldValue -> string;
  ParseNetworkFieldValue :
    string -> ResourceData -> Config -> Res GlobalFieldValue;
  ParseSubnetworkFieldValue :
    string -> ResourceData -> Config -> Res RegionalFieldValue;
  getRegion : ResourceData -> Config -> Res string;
  getProject : ResourceData -> Config -> Res string;
  ConvertSelfLinkToV1 : string -> string;
  handleNotFoundError :
    error -> ResourceData -> string -> ResourceData * option error;
  computeSharedOperationWait :
    ForwardingRulesService Cloud -> computeBeta.Operation -> string ->
    string -> Cloud -> option error * Cloud;
  computeOperationWait :
    ForwardingRulesService Cloud -> compute.Operation -> string ->
    string -> Cloud -> option error * Cloud;
  (** the [%q] verb of [fmt.Sprintf] *)
  Quote : string -> string
}.
Arguments Config {Cloud} p.
Arguments clientComputeBeta {Cloud} p _.
Arguments clientCompute {Cloud} p _.
Arguments GlobalFieldValue {Cloud} p.
Arguments RegionalFieldValue {Cloud} p.
Arguments GlobalRelativeLink {Cloud} p _.
Arguments RegionalRelativeLink {Cloud} p _.
Arguments ParseNetworkFieldValue {Cloud} p _ _ _.
Arguments ParseSubnetworkFieldValue {Cloud} p _ _ _.
Arguments getRegion {Cloud} p _ _.
Arguments getProject {Cloud} p _ _.
Arguments ConvertSelfLinkToV1 {Cloud} p _.
Arguments handleNotFoundError {Cloud} p _ _ _.
Arguments computeSharedOperationWait {Cloud} p _ _ _ _ _.
Arguments computeOperationWait {Cloud} p _ _ _ _ _.
Arguments Quote {Cloud} p _.

(** ** Handler state and the error monad *)

(** What a handler can touch: the resource data behind the pointer [d],
    the remote project, and the ghost trace. *)
Record St (Cloud : Type) : Type := mkSt {
  d : ResourceData;
  cloud : Cloud;
  calls : list ApiCall
}.
Arguments mkSt {Cloud} _ _ _.
Arguments d {Cloud} s.
Arguments cloud {Cloud} s.
Arguments calls {Cloud} s.

Definition M (Cloud A : Type) : Type := St Cloud -> Res A * St Cloud.

Section Monad.
Context {Cloud : Type}.

Definition ret {A} (a : A) : M Cloud A := fun s => (Ok a, s).

Definition bind {A B} (m : M Cloud A) (k : A -> M Cloud B) : M Cloud B :=
  fun s =>
    match m s with
    | (Ok a, s') => k a s'
    | (Err e, s') => (Err e, s')
    end.

(** [if err != nil { return wrap(err) }] around a call. *)
Definition map_err {A} (wrap : error -> error) (m : M Cloud A)
    : M Cloud A :=
  fun s =>
    match m s with
    | (Ok a, s') => (Ok a, s')
    | (Err e, s') => (Err (wrap e), s')
    end.

(** Keeps the [(v, err)] pair as a value, for the caller to branch on. *)
Definition try {A} (m : M Cloud A) : M Cloud (Res A) :=
  fun s => let '(r, s') := m s in (Ok r, s').

(** A read of [d]. *)
Definition read_d {A} (f : ResourceData -> A) : M Cloud A :=
  fun s => (Ok (f (d s)), s).

(** A package helper that reads [d] and may fail. *)
Definition with_d {A} (f : ResourceData -> Res A) : M Cloud A :=
  fun s => (f (d s), s).

(** A write through the pointer [d]. *)
Definition modify_d (f : ResourceData -> ResourceData) : M Cloud unit :=
  fun s => (Ok tt, mkSt (f (d s)) (cloud s) (calls s)).

(** [d.Set(key, v)] as the handlers call it: the returned error is
    dropped. *)
Definition Set_d (key : string) (v : Value) : M Cloud unit :=
  modify_d (fun d0 => fst (d_Set d0 key v)).

(** A helper that may write to [d] and returns an [error]. *)
Definition update_d (f : ResourceData -> ResourceData * option error)
    : M Cloud unit :=
  fun s =>
    let '(d', oe) := f (d s) in
    (match oe with None => Ok tt | Some e => Err e end,
     mkSt d' (cloud s) (calls s)).

(** A request: logged in the trace, then answered by the cloud. *)
Definition call {A} (ev : ApiCall) (tr : Cloud -> Res A * Cloud)
    : M Cloud A :=
  fun s =>
    let '(r, c') := tr (cloud s) in
    (r, mkSt (d s) c' (calls s ++ [ev])%list).

(** A wait on an operation, which returns only an [error]. *)
Definition wait (ev : ApiCall) (tr : Cloud -> option error * Cloud)
    : M Cloud unit :=
  fun s =>
    let '(oe, c') := tr (cloud s) in
    (match oe with None => Ok tt | Some e => Err e end,
     mkSt (d s) c' (calls s ++ [ev])%list).
End Monad.

Declare Scope go_scope.
Delimit Scope go_scope with go.
Notation "x <- m ;; k" := (bind m (fun x => k))
  (at level 100, m at next level, right associativity) : go_scope.
Notation "m ;;; k" := (bind m (fun _ => k))
  (at level 100, right associativity) : go_scope.

(** ** The handlers *)

Section Handlers.
Context {Cloud : Type}.
Variable pkg : Package Cloud.

Local Open Scope go_scope.

(** The lifecycle handlers receive [d] through the monad's state and
    [meta], which they assert to be the provider's [*Config]. *)
Definition handler : Type := Config pkg -> M Cloud unit.

(** The loop of Create that copies the items of the set into a
    [[]string], appending one asserted string per iteration. *)
Definition copyPorts (ps : list string) : list string :=
  foldl (fun ports v => (ports ++ [v])%list) [] ps.

Definition resourceComputeForwardingRuleRead : handler := fun meta =>
  let config := meta in
  region <- with_d (fun d => getRegion pkg d config) ;;
  project <- with_d (fun d => getProject pkg d config) ;;
  id <- read_d Id ;;
  r <- try (call (GetCall project region id)
              (ForwardingRules_Get (clientComputeBeta pkg config)
                 project region id)) ;;
  match r with
  | Err err =>
      name <- read_d (fun d => GetString d "name") ;;
      update_d (fun d =>
        handleNotFoundError pkg err d
          ("Forwarding Rule " ++ Quote pkg name))
  | Ok frule =>
      Set_d "name" (VString (computeBeta.Name frule)) ;;;
      Set_d "target" (VString (computeBeta.Target frule)) ;;;
      Set_d "backend_service"
        (VString (ConvertSelfLinkToV1 pkg
                    (computeBeta.BackendService frule))) ;;;
      Set_d "description" (VString (computeBeta.Description frule)) ;;;
      Set_d "load_balancing_scheme"
        (VString (computeBeta.LoadBalancingScheme frule)) ;;;
      Set_d "network" (VString (computeBeta.Network frule)) ;;;
      Set_d "network_tier" (VString (computeBeta.NetworkTier frule)) ;;;
      Set_d "port_range" (VString (computeBeta.PortRange frule)) ;;;
      Set_d "ports" (VList (computeBeta.Ports frule)) ;;;
      Set_d "project" (VString project) ;;;
      Set_d "region" (VString region) ;;;
      Set_d "subnetwork" (VString (computeBeta.Subnetwork frule)) ;;;
      Set_d "ip_address" (VString (computeBeta.IPAddress frule)) ;;;
      Set_d "ip_protocol" (VString (computeBeta.IPProtocol frule)) ;;;
      Set_d "self_link"
        (VString (ConvertSelfLinkToV1 pkg
                    (computeBeta.SelfLink frule))) ;;;
      ret tt
  end.

Definition resourceComputeForwardingRuleCreate : handler := fun meta =>
  let config := meta in
  network <- with_d (fun d =>
    ParseNetworkFieldValue pkg (GetString d "network") d config) ;;
  subnetwork <- with_d (fun d =>
    ParseSubnetworkFieldValue pkg (GetString d "subnetwork") d config) ;;
  region <- with_d (fun d => getRegion pkg d config) ;;
  project <- with_d (fun d => getProject pkg d config) ;;
  ps <- read_d (fun d => List (GetSet d "ports")) ;;
  let ports := copyPorts ps in
  frule <- read_d (fun d =>
    {| computeBeta.BackendService := GetString d "backend_service";
       computeBeta.IPAddress := GetString d "ip_address";
       computeBeta.IPProtocol := GetString d "ip_protocol";
       computeBeta.Description := GetString d "description";
       computeBeta.LoadBalancingScheme :=
         GetString d "load_balancing_scheme";
       computeBeta.Name := GetString d "name";
       computeBeta.Network := GlobalRelativeLink pkg network;
       computeBeta.NetworkTier := GetString d "network_tier";
       computeBeta.PortRange := GetString d "port_range";
       computeBeta.Ports := ports;
       computeBeta.Subnetwork := RegionalRelativeLink pkg subnetwork;
       computeBeta.Target :=
         ConvertSelfLinkToV1 pkg (GetString d "target");
       computeBeta.SelfLink := "" |}) ;;
  op <- map_err (Errorf "Error creating ForwardingRule: ")
          (call (InsertCall project region frule)
             (ForwardingRules_Insert (clientComputeBeta pkg config)
                project region frule)) ;;
  (* It probably maybe worked, so store the ID now *)
  modify_d (fun d => SetId d (computeBeta.Name frule)) ;;;
  wait (SharedOperationWaitCall op project "Creating Fowarding Rule")
    (computeSharedOperationWait pkg (clientCompute pkg config) op
       project "Creating Fowarding Rule") ;;;
  resourceComputeForwardingRuleRead meta.

Definition resourceComputeForwardingRuleUpdate : handler := fun meta =>
  let config := meta in
  region <- with_d (fun d => getRegion pkg d config) ;;
  project <- with_d (fun d => getProject pkg d config) ;;
  modify_d (fun d => Partial d true) ;;;
  changed <- read_d (fun d => HasChange d "target") ;;
  (if changed : bool then
     target_name <- read_d (fun d => GetString d "target") ;;
     let target_ref := {| compute.Target := target_name |} in
     id <- read_d Id ;;
     op <- map_err (Errorf "Error updating target: ")
             (call (SetTargetCall project region id target_ref)
                (ForwardingRules_SetTarget (clientCompute pkg config)
                   project region id target_ref)) ;;
     wait (OperationWaitCall op project "Updating Forwarding Rule")
       (computeOperationWait pkg (clientCompute pkg config) op
          project "Updating Forwarding Rule") ;;;
     modify_d (fun d => SetPartial d "target")
   else ret tt) ;;;
  modify_d (fun d => Partial d false) ;;;
  resourceComputeForwardingRuleRead meta.

Definition resourceComputeForwardingRuleDelete : handler := fun meta =>
  let config := meta in
  region <- with_d (fun d => getRegion pkg d config) ;;
  project <- with_d (fun d => getProject pkg d config) ;;
  (* Delete the ForwardingRule *)
  id <- read_d Id ;;
  op <- map_err (Errorf "Error deleting ForwardingRule: ")
          (call (DeleteCall project region id)
             (ForwardingRules_Delete (clientCompute pkg config)
                project region id)) ;;
  wait (OperationWaitCall op project "Deleting Forwarding Rule")
    (computeOperationWait pkg (clientCompute pkg config) op
       project "Deleting Forwarding Rule") ;;;
  modify_d (fun d => SetId d "") ;;;
  ret tt.

(** The attribute table of the resource. *)
Definition forwardingRuleSchema : gmap string Schema :=
  list_to_map
    [ ("name",
       {| Type_ := TypeString; Elem := None; Required := true;
          Optional := false; ForceNew := true; Computed := false;
          Default := None; DiffSuppressFunc := None;
          ValidateFunc := None; Set_ := None; MaxItems := 0 |});
      ("target",
       {| Type_ := TypeString; Elem := None; Required := false;
          Optional := true; ForceNew := false; Computed := false;
          Default := None;
          DiffSuppressFunc := Some compareSelfLinkRelativePaths;
          ValidateFunc := None; Set_ := None; MaxItems := 0 |});
      ("backend_service",
       {| Type_ := TypeString; Elem := None; Required := false;
          Optional := true; ForceNew := true; Computed := false;
          Default := None; DiffSuppressFunc := None;
          ValidateFunc := None; Set_ := None; MaxItems := 0 |});
      ("description",
       {| Type_ := TypeString; Elem := None; Required := false;
          Optional := true; ForceNew := true; Computed := false;
          Default := None; DiffSuppressFunc := None;
          ValidateFunc := None; Set_ := None; MaxItems := 0 |});
      ("ip_address",
       {| Type_ := TypeString; Elem := None; Required := false;
          Optional := true; ForceNew := true; Computed := true;
          Default := None; DiffSuppressFunc := None;
          ValidateFunc := None; Set_ := None; MaxItems := 0 |});
      ("ip_protocol",
       {| Type_ := TypeString; Elem := None; Required := false;
          Optional := true; ForceNew := true; Computed := true;
          Default := None; DiffSuppressFunc := Some caseDiffSuppress;
          ValidateFunc := None; Set_ := None; MaxItems := 0 |});
      ("load_balancing_scheme",
       {| Type_ := TypeString; Elem := None; Required := false;
          Optional := true; ForceNew := true; Computed := false;
          Default := Some "EXTERNAL"; DiffSuppressFunc := None;
          ValidateFunc := None; Set_ := None; MaxItems := 0 |});
      ("network",
       {| Type_ := TypeString; Elem := None; Required := false;
          Optional := true; ForceNew := true; Computed := true;
          Default := None;
          DiffSuppressFunc := Some compareSelfLinkOrResourceName;
          ValidateFunc := None; Set_ := None; MaxItems := 0 |});
      ("network_tier",
       {| Type_ := TypeString; Elem := None; Required := false;
          Optional := true; ForceNew := true; Computed := true;
          Default := None; DiffSuppressFunc := None;
          ValidateFunc :=
            Some (StringInSlice ["PREMIUM"; "STANDARD"] false);
          Set_ := None; MaxItems := 0 |});
      ("port_range",
       {| Type_ := TypeString; Elem := None; Required := false;
          Optional := true; ForceNew := true; Computed := false;
          Default := None;
          DiffSuppressFunc := Some portRangeDiffSuppress;
          ValidateFunc := None; Set_ := None; MaxItems := 0 |});
      ("ports",
       {| Type_ := TypeSet; Elem := Some TypeString; Required := false;
          Optional := true; ForceNew := true; Computed := false;
          Default := None; DiffSuppressFunc := None;
          ValidateFunc := None; Set_ := Some HashString;
          MaxItems := 5 |});
      ("project",
       {| Type_ := TypeString; Elem := None; Required := false;
          Optional := true; ForceNew := true; Computed := true;
          Default := None; DiffSuppressFunc := None;
          ValidateFunc := None; Set_ := None; MaxItems := 0 |});
      ("region",
       {| Type_ := TypeString; Elem := None; Required := false;
          Optional := true; ForceNew := true; Computed := true;
          Default := None; DiffSuppressFunc := None;
          ValidateFunc := None; Set_ := None; MaxItems := 0 |});
      ("self_link",
       {| Type_ := TypeString; Elem := None; Required := false;
          Optional := false; ForceNew := false; Computed := true;
          Default := None; DiffSuppressFunc := None;
          ValidateFunc := None; Set_ := None; MaxItems := 0 |});
      ("subnetwork",
       {| Type_ := TypeString; Elem := None; Required := false;
          Optional := true; ForceNew := true; Computed := true;
          Default := None;
          DiffSuppressFunc := Some compareSelfLinkOrResourceName;
          ValidateFunc := None; Set_ := None; MaxItems := 0 |}) ].

Definition resourceComputeForwardingRule : Resource handler :=
  {| Create := Some resourceComputeForwardingRuleCreate;
     Read := Some resourceComputeForwardingRuleRead;
     Delete := Some resourceComputeForwardingRuleDelete;
     Update := Some resourceComputeForwardingRuleUpdate;
     Exists := None;
     MigrateState := None;
     CustomizeDiff := None;
     Importer := Some {| State := ImportStatePassthrough |};
     Schema_ := forwardingRuleSchema |}.

End Handlers.

Arguments handler {Cloud} pkg.

(** ** Vocabulary of the properties *)

Section Vocabulary.
Context {Cloud : Type}.
Variable pkg : Package Cloud.
Variable meta : Config pkg.

(** The request object Create builds from the parsed network and
    subnetwork and from the attributes of [d]. *)
Definition insertRequest (network : GlobalFieldValue pkg)
    (subnetwork : RegionalFieldValue pkg) (d0 : ResourceData)
    : computeBeta.ForwardingRule :=
  {| computeBeta.BackendService := GetString d0 "backend_service";
     computeBeta.IPAddress := GetString d0 "ip_address";
     computeBeta.IPProtocol := GetString d0 "ip_protocol";
     computeBeta.Description := GetString d0 "description";
     computeBeta.LoadBalancingScheme :=
       GetString d0 "load_balancing_scheme";
     computeBeta.Name := GetString d0 "name";
     computeBeta.Network := GlobalRelativeLink pkg network;
     computeBeta.NetworkTier := GetString d0 "network_tier";
     computeBeta.PortRange := GetString d0 "port_range";
     computeBeta.Ports := copyPorts (List (GetSet d0 "ports"));
     computeBeta.Subnetwork := RegionalRelativeLink pkg subnetwork;
     computeBeta.Target :=
       ConvertSelfLinkToV1 pkg (GetString d0 "target");
     computeBeta.SelfLink := "" |}.

(** The activity names handed to the waits. *)
Definition createWait : string := "Creating Fowarding Rule".
Definition updateWait : string := "Updating Forwarding Rule".
Definition deleteWait : string := "Deleting Forwarding Rule".

(** The writes of a successful Read, in source order. *)
Definition refreshed (region project : string)
    (frule : computeBeta.ForwardingRule) : list (string * Value) :=
  [ ("name", VString (computeBeta.Name frule));
    ("target", VString (computeBeta.Target frule));
    ("backend_service",
     VString (ConvertSelfLinkToV1 pkg (computeBeta.BackendService frule)));
    ("description", VString (computeBeta.Description frule));
    ("load_balancing_scheme",
     VString (computeBeta.LoadBalancingScheme frule));
    ("network", VString (computeBeta.Network frule));
    ("network_tier", VString (computeBeta.NetworkTier frule));
    ("port_range", VString (computeBeta.PortRange frule));
    ("ports", VList (computeBeta.Ports frule));
    ("project", VString project);
    ("region", VString region);
    ("subnetwork", VString (computeBeta.Subnetwork frule));
    ("ip_address", VString (computeBeta.IPAddress frule));
    ("ip_protocol", VString (computeBeta.IPProtocol frule));
    ("self_link",
     VString (ConvertSelfLinkToV1 pkg (computeBeta.SelfLink frule))) ].

Definition setAll (kvs : list (string * Value)) (d0 : ResourceData)
    : ResourceData :=
  foldl (fun d1 kv => (d_Set d1 kv.1 kv.2).1) d0 kvs.

(** The outcome of the not-found handler, as a handler result. *)
Definition notFoundOutcome (err : error) (s : St Cloud) (c' : Cloud)
    (ev : ApiCall) : Res unit * St Cloud :=
  let '(d', oe) :=
    handleNotFoundError pkg err (d s)
      ("Forwarding Rule " ++ Quote pkg (GetString (d s) "name")) in
  (match oe with None => Ok tt | Some e => Err e end,
   mkSt d' c' (calls s ++ [ev])%list).

(** The calls a handler adds to the trace when run from [s]. *)
Definition emitted {A} (m : M Cloud A) (s : St Cloud) : list ApiCall :=
  drop (List.length (calls s)) (calls (m s).2).

(** [d'] holds the remote rule [frule] read under [project] and
    [region]: every attribute Read refreshes shows the fetched value. *)
Definition Reconciled (region project : string)
    (frule : computeBeta.ForwardingRule) (d' : ResourceData) : Prop :=
  Get d' "name" = VString (computeBeta.Name frule) /\
  Get d' "target" = VString (computeBeta.Target frule) /\
  Get d' "backend_service" =
    VString (ConvertSelfLinkToV1 pkg (computeBeta.BackendService frule)) /\
  Get d' "description" = VString (computeBeta.Description frule) /\
  Get d' "load_balancing_scheme" =
    VString (computeBeta.LoadBalancingScheme frule) /\
  Get d' "network" = VString (computeBeta.Network frule) /\
  Get d' "network_tier" = VString (computeBeta.NetworkTier frule) /\
  Get d' "port_range" = VString (computeBeta.PortRange frule) /\
  Get d' "ports" = VSet (list_to_set (computeBeta.Ports frule)) /\
  Get d' "subnetwork" = VString (computeBeta.Subnetwork frule) /\
  Get d' "ip_address" = VString (computeBeta.IPAddress frule) /\
  Get d' "ip_protocol" = VString (computeBeta.IPProtocol frule) /\
  Get d' "self_link" =
    VString (ConvertSelfLinkToV1 pkg (computeBeta.SelfLink frule)) /\
  Get d' "project" = VString project /\
  Get d' "region" = VString region.

(** The reading of C4 without its resolution proviso: a SetTarget call
    carrying the configured target is emitted exactly when the target
    has changed. *)
Definition SetTarget_iff_changed (s : St Cloud) : Prop :=
  (exists project region,
     SetTargetCall project region (Id (d s))
       {| compute.Target := GetString (d s) "target" |}
     ∈ emitted (resourceComputeForwardingRuleUpdate pkg meta) s)
  <-> HasChange (d s) "target" = true.
End Vocabulary.

(** The reading of C5 without a proviso on the final Get: whenever
    Create returns nil, [d] shows a rule that a Get for the configured
    name has fetched. *)
Definition success_is_reconciled {Cloud : Type} (pkg : Package Cloud)
    (meta : Config pkg) (s : St Cloud) : Prop :=
  forall s',
    resourceComputeForwardingRuleCreate pkg meta s = (Ok tt, s') ->
    exists region project remote c c',
      ForwardingRules_Get (clientComputeBeta pkg meta) project region
        (GetString (d s) "name") c = (Ok remote, c') /\
      Reconciled pkg region project remote (d s').

(** ** Vocabulary of the further properties *)

(** The attributes Create sends as configured and Read stores as
    fetched, with no conversion on either way. *)
Definition plainAttributes : list string :=
  [ "name"; "description"; "ip_address"; "ip_protocol";
    "load_balancing_scheme"; "network_tier"; "port_range"; "ports" ].

(** An attribute that can be set in the configuration. *)
Definition configurable (s : Schema) : bool := Required s || Optional s.

(** The fields of [d] that [d.Set] does not write. *)
Definition sameFrame (d1 d2 : ResourceData) : Prop :=
  rd_id d1 = rd_id d2 /\ rd_schema d1 = rd_schema d2 /\
  rd_state d1 = rd_state d2 /\ rd_diff d1 = rd_diff d2 /\
  rd_partial d1 = rd_partial d2 /\ rd_partialMap d1 = rd_partialMap d2.

(** The rule a request is about: the name inside an insert request, the
    name argument of the other requests; a wait names no rule. *)
Definition targets (id : string) (ev : ApiCall) : Prop :=
  match ev with
  | InsertCall _ _ frule => computeBeta.Name frule = id
  | GetCall _ _ name | DeleteCall _ _ name
  | SetTargetCall _ _ name _ => name = id
  | SharedOperationWaitCall _ _ _ | OperationWaitCall _ _ _ => True
  end.

(** Two rules that agree on the fields behind [plainAttributes], the
    ports being compared as sets. *)
Definition agreeOnPlainFields (f g : computeBeta.ForwardingRule) : Prop :=
  computeBeta.Name f = computeBeta.Name g /\
  computeBeta.Description f = computeBeta.Description g /\
  computeBeta.IPAddress f = computeBeta.IPAddress g /\
  computeBeta.IPProtocol f = computeBeta.IPProtocol g /\
  computeBeta.LoadBalancingScheme f = computeBeta.LoadBalancingScheme g /\
  computeBeta.NetworkTier f = computeBeta.NetworkTier g /\
  computeBeta.PortRange f = computeBeta.PortRange g /\
  list_to_set (computeBeta.Ports f) =@{gset string}
    list_to_set (computeBeta.Ports g).

Definition isInsert (c : ApiCall) : bool :=
  match c with InsertCall _ _ _ => true | _ => false end.

Definition isDelete (c : ApiCall) : bool :=
  match c with DeleteCall _ _ _ => true | _ => false end.

(** The mutating requests of a trace. *)
Definition mutations (l : list ApiCall) : list ApiCall :=
  filter (fun ev => mutating ev = true) l.

(** ** An in-memory cloud

    A small implementation of the package and of the API, used to run the
    handlers on concrete inputs: the remote project is a map from rule
    names to forwarding rules, and a [Faults] record says which steps are
    to fail. *)
Module Mock.

Record Faults : Type := {
  failNetwork : bool;
  failRegion : bool;
  failProject : bool;
  failRequest : bool;
  failWait : bool
}.

Definition noFaults : Faults :=
  {| failNetwork := false; failRegion := false; failProject := false;
     failRequest := false; failWait := false |}.

Definition Cloud : Type := gmap string computeBeta.ForwardingRule.

Definition opOf (name : string) : computeBeta.Operation :=
  {| computeBeta.OpName := "operation-" ++ name |}.
Definition opOfV1 (name : string) : compute.Operation :=
  {| compute.OpName := "operation-" ++ name |}.

Definition notFound : error := GoogleApiError 404 "notFound".
Definition backendError : error := GoogleApiError 500 "backendError".

Definition withTarget (t : string) (f : computeBeta.ForwardingRule)
    : computeBeta.ForwardingRule :=
  {| computeBeta.BackendService := computeBeta.BackendService f;
     computeBeta.IPAddress := computeBeta.IPAddress f;
     computeBeta.IPProtocol := computeBeta.IPProtocol f;
     computeBeta.Description := computeBeta.Description f;
     computeBeta.LoadBalancingScheme := computeBeta.LoadBalancingScheme f;
     computeBeta.Name := computeBeta.Name f;
     computeBeta.Network := computeBeta.Network f;
     computeBeta.NetworkTier := computeBeta.NetworkTier f;
     computeBeta.PortRange := computeBeta.PortRange f;
     computeBeta.Ports := computeBeta.Ports f;
     computeBeta.Subnetwork := computeBeta.Subnetwork f;
     computeBeta.Target := t;
     computeBeta.SelfLink := computeBeta.SelfLink f |}.

Definition beta (fl : Faults) : BetaForwardingRulesService Cloud :=
  {| ForwardingRules_Insert := fun project region frule c =>
       if failRequest fl then (Err backendError, c)
       else (Ok (opOf (computeBeta.Name frule)),
             <[computeBeta.Name frule := frule]> c);
     ForwardingRules_Get := fun project region name c =>
       match c !! name with
       | Some f => (Ok f, c)
       | None => (Err notFound, c)
       end |}.

Definition v1 (fl : Faults) : ForwardingRulesService Cloud :=
  {| ForwardingRules_SetTarget := fun project region name ref c =>
       if failRequest fl then (Err backendError, c)
       else match c !! name with
            | Some f =>
                (Ok (opOfV1 name),
                 <[name := withTarget (compute.Target ref) f]> c)
            | None => (Err notFound, c)
            end;
     ForwardingRules_Delete := fun project region name c =>
       if failRequest fl then (Err backendError, c)
       else (Ok (opOfV1 name), delete name c) |}.

Definition pkg (fl : Faults) : Package Cloud :=
  {| Config := unit;
     clientComputeBeta := fun _ => beta fl;
     clientCompute := fun _ => v1 fl;
     GlobalFieldValue := string;
     RegionalFieldValue := string;
     GlobalRelativeLink := fun n =>
       if bool_decide (n = "") then ""
       else "projects/p/global/networks/" ++ n;
     RegionalRelativeLink := fun n =>
       if bool_decide (n = "") then ""
       else "projects/p/regions/r/subnetworks/" ++ n;
     ParseNetworkFieldValue := fun v _ _ =>
       if failNetwork fl then Err (ErrorString "invalid network")
       else Ok v;
     ParseSubnetworkFieldValue := fun v _ _ => Ok v;
     getRegion := fun _ _ =>
       if failRegion fl then Err (ErrorString "region is not set")
       else Ok "r";
     getProject := fun _ _ =>
       if failProject fl then Err (ErrorString "project is not set")
       else Ok "p";
     ConvertSelfLinkToV1 := fun s => s;
     handleNotFoundError := fun err d0 resource =>
       match err with
       | GoogleApiError 404 _ => (SetId d0 "", None)
       | _ => (d0, Some (Errorf ("Error reading " ++ resource ++ ": ") err))
       end;
     computeSharedOperationWait := fun _ _ _ _ c =>
       if failWait fl then (Some (ErrorString "timeout"), c)
       else (None, c);
     computeOperationWait := fun _ _ _ _ c =>
       if failWait fl then (Some (ErrorString "timeout"), c)
       else (None, c);
     Quote := fun s => s |}.

(** A planned resource: no prior state, the configuration in the diff
    level. *)
Definition planned : ResourceData :=
  {| rd_schema := forwardingRuleSchema;
     rd_state := ∅;
     rd_diff :=
       list_to_map
         [ ("name", VString "rule-1");
           ("target", VString "pool-a");
           ("ports", VSet {[ "80"; "443" ]}) ];
     rd_set := ∅;
     rd_id := "";
     rd_partial := false;
     rd_partialMap := ∅ |}.

(** An existing resource whose configured target moved from [pool-a] to
    [pool-b]. *)
Definition retargeted : ResourceData :=
  {| rd_schema := forwardingRuleSchema;
     rd_state :=
       list_to_map [ ("name", VString "rule-1");
                     ("target", VString "pool-a") ];
     rd_diff :=
       list_to_map [ ("name", VString "rule-1");
                     ("target", VString "pool-b") ];
     rd_set := ∅;
     rd_id := "rule-1";
     rd_partial := false;
     rd_partialMap := ∅ |}.

(** The same resource with nothing to change. *)
Definition settled : ResourceData :=
  {| rd_schema := forwardingRuleSchema;
     rd_state :=
       list_to_map [ ("name", VString "rule-1");
                     ("target", VString "pool-a") ];
     rd_diff :=
       list_to_map [ ("name", VString "rule-1");
                     ("target", VString "pool-a") ];
     rd_set := ∅;
     rd_id := "rule-1";
     rd_partial := false;
     rd_partialMap := ∅ |}.

Definition rule1 : computeBeta.ForwardingRule :=
  {| computeBeta.BackendService := "";
     computeBeta.IPAddress := "203.0.113.7";
     computeBeta.IPProtocol := "TCP";
     computeBeta.Description := "";
     computeBeta.LoadBalancingScheme := "EXTERNAL";
     computeBeta.Name := "rule-1";
     computeBeta.Network := "";
     computeBeta.NetworkTier := "PREMIUM";
     computeBeta.PortRange := "";
     computeBeta.Ports := ["80"; "443"];
     computeBeta.Subnetwork := "";
     computeBeta.Target := "pool-a";
     computeBeta.SelfLink := "projects/p/regions/r/forwardingRules/rule-1" |}.

Definition oneRule : Cloud := {[ "rule-1" := rule1 ]}.

Definition start (d0 : ResourceData) (c : Cloud) : St Cloud :=
  mkSt d0 c [].

Definition healthy : Package Cloud := pkg noFaults.

Definition regionFault : Faults :=
  {| failNetwork := false; failRegion := true; failProject := false;
     failRequest := false; failWait := false |}.

Definition waitFault : Faults :=
  {| failNetwork := false; failRegion := false; failProject := false;
     failRequest := false; failWait := true |}.

(** The request Create builds for [planned]. *)
Definition plannedRequest : computeBeta.ForwardingRule :=
  {| computeBeta.BackendService := "";
     computeBeta.IPAddress := "";
     computeBeta.IPProtocol := "";
     computeBeta.Description := "";
     computeBeta.LoadBalancingScheme := "";
     computeBeta.Name := "rule-1";
     computeBeta.Network := "";
     computeBeta.NetworkTier := "";
     computeBeta.PortRange := "";
     computeBeta.Ports := ["443"; "80"];
     computeBeta.Subnetwork := "";
     computeBeta.Target := "pool-a";
     computeBeta.SelfLink := "" |}.

Definition afterDelete : St Cloud :=
  mkSt (SetId settled "") ∅
    [ DeleteCall "p" "r" "rule-1";
      OperationWaitCall (opOfV1 "rule-1") "p" deleteWait ].

(** A project whose reads lag behind its writes: an insert is accepted
    and stored, but a Get does not find the rule yet. The rest is as in
    [healthy]; in particular a 404 makes the not-found handler drop the
    id and return nil. *)
Definition laggingBeta : BetaForwardingRulesService Cloud :=
  {| ForwardingRules_Insert := ForwardingRules_Insert (beta noFaults);
     ForwardingRules_Get := fun project region name c =>
       (Err notFound, c) |}.

Definition lagging : Package Cloud :=
  {| Config := unit;
     clientComputeBeta := fun _ => laggingBeta;
     clientCompute := clientCompute healthy;
     GlobalFieldValue := string;
     RegionalFieldValue := string;
     GlobalRelativeLink := GlobalRelativeLink healthy;
     RegionalRelativeLink := RegionalRelativeLink healthy;
     ParseNetworkFieldValue := ParseNetworkFieldValue healthy;
     ParseSubnetworkFieldValue := ParseSubnetworkFieldValue healthy;
     getRegion := getRegion healthy;
     getProject := getProject healthy;
     ConvertSelfLinkToV1 := ConvertSelfLinkToV1 healthy;
     handleNotFoundError := handleNotFoundError healthy;
     computeSharedOperationWait := computeSharedOperationWait healthy;
     computeOperationWait := computeOperationWait healthy;
     Quote := Quote healthy |}.

(** [planned] after a Create against the lagging project. *)
Definition createdUnread : St Cloud :=
  mkSt (SetId planned "") {[ "rule-1" := plannedRequest ]}
    [ InsertCall "p" "r" plannedRequest;
      SharedOperationWaitCall (opOf "rule-1") "p" createWait;
      GetCall "p" "r" "rule-1" ].

Definition requestFault : Faults :=
  {| failNetwork := false; failRegion := false; failProject := false;
     failRequest := true; failWait := false |}.

(** [settled] after a first Read against [oneRule]. *)
Definition refreshedOnce : St Cloud :=
  (resourceComputeForwardingRuleRead healthy tt (start settled oneRule)).2.

End Mock.

(** * Properties *)

(** ** Resource data *)

Section ResourceDataFacts.
Implicit Types (d : ResourceData) (key : string) (v : Value).


Lemma typeOf_writeSet d key v key' :
  typeOf (writeSet d key v) key' = typeOf d key'.
Proof. reflexivity. Qed.

Lemma d_Set_string d key (s : string) :
  typeOf d key = Some TypeString ->
  d_Set d key (VString s) = (writeSet d key (VString s), None).
Proof.
  unfold typeOf, d_Set. destruct (rd_schema d !! key) as [sch|]; [|done].
  simpl. intros [= ->]. reflexivity.
Qed.

Lemma d_Set_list d key (l : list string) :
  typeOf d key = Some TypeSet ->
  d_Set d key (VList l) = (writeSet d key (VSet (list_to_set l)), None).
Proof.
  unfold typeOf, d_Set. destruct (rd_schema d !! key) as [sch|]; [|done].
  simpl. intros [= ->]. reflexivity.
Qed.

Lemma Get_writeSet_eq d key v : Get (writeSet d key v) key = v.
Proof. unfold Get, writeSet. simpl. by rewrite lookup_insert_eq. Qed.

Lemma Get_writeSet_ne d key key' v :
  key ≠ key' -> Get (writeSet d key v) key' = Get d key'.
Proof.
  intros Hne. unfold Get, writeSet, readLevel. simpl.
  by rewrite lookup_insert_ne.
Qed.

(** Whatever [d.Set] does, it touches neither the id, nor the schema,
    nor the partial-mode bookkeeping. *)
Lemma d_Set_frame d key v :
  let d' := (d_Set d key v).1 in
  rd_id d' = rd_id d /\ rd_schema d' = rd_schema d /\
  rd_state d' = rd_state d /\ rd_diff d' = rd_diff d /\
  rd_partial d' = rd_partial d /\ rd_partialMap d' = rd_partialMap d.
Proof.
  unfold d_Set. destruct (rd_schema d !! key) as [sch|]; [|done].
  destruct (Type_ sch), v; done.
Qed.

(** On well-typed resource data, [d.Get] returns a value of the
    attribute's type, so the type assertions of the handlers hold. *)
Lemma Get_hasType d key t :
  wellTyped d -> typeOf d key = Some t -> hasType (Get d key) t = true.
Proof.
  intros Hwt Ht. unfold typeOf in Ht. unfold Get, readLevel.
  destruct (rd_schema d !! key) as [sch|] eqn:Hsch; [|done].
  injection Ht as <-.
  destruct (rd_set d !! key) as [v|] eqn:Hset.
  { destruct (Hwt key v) as (sch' & Hs' & Hty); [by left|]. congruence. }
  destruct (rd_diff d !! key) as [v|] eqn:Hdiff.
  { destruct (Hwt key v) as (sch' & Hs' & Hty); [by right; left|].
    congruence. }
  by destruct (Type_ sch).
Qed.

Lemma GetString_exact d key :
  wellTyped d -> typeOf d key = Some TypeString ->
  Get d key = VString (GetString d key).
Proof.
  intros Hwt Ht. pose proof (Get_hasType d key _ Hwt Ht) as Hty.
  unfold GetString. by destruct (Get d key).
Qed.

Lemma GetSet_exact d key :
  wellTyped d -> typeOf d key = Some TypeSet ->
  Get d key = VSet (GetSet d key).
Proof.
  intros Hwt Ht. pose proof (Get_hasType d key _ Hwt Ht) as Hty.
  unfold GetSet. by destruct (Get d key).
Qed.


Lemma wellTyped_levels d :
  typedLevel d (rd_set d) -> typedLevel d (rd_diff d) ->
  typedLevel d (rd_state d) -> wellTyped d.
Proof.
  intros Hset Hdiff Hstate key v [Hlk|[Hlk|Hlk]];
    [apply Hset in Hlk|apply Hdiff in Hlk|apply Hstate in Hlk];
    destruct (rd_schema d !! key) as [sch|]; by eauto.
Qed.

(** [d.Set] keeps resource data well typed, whatever it is given. *)
Lemma d_Set_wellTyped d key v : wellTyped d -> wellTyped (d_Set d key v).1.
Proof.
  intros Hwt. unfold d_Set.
  destruct (rd_schema d !! key) as [sch|] eqn:Hsch; [|exact Hwt].
  destruct (Type_ sch) eqn:Hty, v; try exact Hwt.
  all: intros key' v' Hlk; cbn [fst writeSet rd_set rd_diff rd_state
                                rd_schema] in *.
  all: destruct (decide (key = key')) as [<-|Hne];
    [|rewrite lookup_insert_ne in Hlk by done; by apply Hwt].
  all: rewrite lookup_insert_eq in Hlk.
  all: destruct Hlk as [[= <-]|Hlk]; [|by apply Hwt; right].
  all: exists sch; by rewrite Hty.
Qed.

(** The copy loop of Create returns the items it was given, in order. *)
Lemma copyPorts_acc (acc ps : list string) :
  foldl (fun ports p => (ports ++ [p])%list) acc ps = (acc ++ ps)%list.
Proof.
  revert acc. induction ps as [|p ps IH]; intros acc; simpl.
  - by rewrite app_nil_r.
  - rewrite IH. by rewrite <- app_assoc.
Qed.

Lemma copyPorts_id (ps : list string) : copyPorts ps = ps.
Proof. unfold copyPorts. apply copyPorts_acc. Qed.

Lemma length_List (X : gset string) : List.length (List X) = Len X.
Proof. reflexivity. Qed.
End ResourceDataFacts.

(** ** Closed forms of the handlers *)

Section HandlerFacts.
Context {Cloud : Type}.
Variable pkg : Package Cloud.
Variable meta : Config pkg.

Abbreviation Read := (resourceComputeForwardingRuleRead pkg meta).
Abbreviation Create := (resourceComputeForwardingRuleCreate pkg meta).
Abbreviation Update := (resourceComputeForwardingRuleUpdate pkg meta).
Abbreviation Delete := (resourceComputeForwardingRuleDelete pkg meta).




Lemma Read_cases s :
  match getRegion pkg (d s) meta with
  | Err e => Read s = (Err e, s)
  | Ok region =>
      match getProject pkg (d s) meta with
      | Err e => Read s = (Err e, s)
      | Ok project =>
          let ev := GetCall project region (Id (d s)) in
          match ForwardingRules_Get (clientComputeBeta pkg meta)
                  project region (Id (d s)) (cloud s) with
          | (Ok frule, c') =>
              Read s =
              (Ok tt,
               mkSt (setAll (refreshed pkg region project frule) (d s)) c'
                 (calls s ++ [ev])%list)
          | (Err err, c') => Read s = notFoundOutcome pkg err s c' ev
          end
      end
  end.
Proof.
  unfold resourceComputeForwardingRuleRead, notFoundOutcome.
  unfold bind, with_d, read_d, try, call.
  destruct (getRegion pkg (d s) meta) as [region|e]; [|reflexivity].
  destruct (getProject pkg (d s) meta) as [project|e]; [|reflexivity].
  cbv beta iota zeta.
  destruct (ForwardingRules_Get (clientComputeBeta pkg meta)
              project region (Id (d s)) (cloud s)) as [[frule|err] c'].
  - cbv [Set_d modify_d setAll refreshed foldl d cloud calls fst snd ret].
    reflexivity.
  - cbv [update_d read_d]. reflexivity.
Qed.



Lemma Create_cases s :
  match ParseNetworkFieldValue pkg (GetString (d s) "network") (d s) meta
  with
  | Err e => Create s = (Err e, s)
  | Ok network =>
  match ParseSubnetworkFieldValue pkg (GetString (d s) "subnetwork")
          (d s) meta with
  | Err e => Create s = (Err e, s)
  | Ok subnetwork =>
  match getRegion pkg (d s) meta with
  | Err e => Create s = (Err e, s)
  | Ok region =>
  match getProject pkg (d s) meta with
  | Err e => Create s = (Err e, s)
  | Ok project =>
      let frule := insertRequest pkg network subnetwork (d s) in
      let ins := InsertCall project region frule in
      match ForwardingRules_Insert (clientComputeBeta pkg meta)
              project region frule (cloud s) with
      | (Err err, c1) =>
          Create s =
          (Err (Errorf "Error creating ForwardingRule: " err),
           mkSt (d s) c1 (calls s ++ [ins])%list)
      | (Ok op, c1) =>
          let d1 := SetId (d s) (computeBeta.Name frule) in
          let wt := SharedOperationWaitCall op project createWait in
          match computeSharedOperationWait pkg (clientCompute pkg meta)
                  op project createWait c1 with
          | (Some e, c2) =>
              Create s = (Err e, mkSt d1 c2 (calls s ++ [ins; wt])%list)
          | (None, c2) =>
              Create s = Read (mkSt d1 c2 (calls s ++ [ins; wt])%list)
          end
      end
  end end end end.
Proof.
  unfold resourceComputeForwardingRuleCreate.
  unfold bind, with_d, read_d, map_err, call, wait, modify_d.
  destruct (ParseNetworkFieldValue _ _ _ _) as [network|e];
    [|reflexivity].
  destruct (ParseSubnetworkFieldValue _ _ _ _) as [subnetwork|e];
    [|reflexivity].
  destruct (getRegion pkg (d s) meta) as [region|e]; [|reflexivity].
  destruct (getProject pkg (d s) meta) as [project|e]; [|reflexivity].
  cbv beta iota zeta. fold (insertRequest pkg network subnetwork (d s)).
  destruct (ForwardingRules_Insert _ _ _ _ _) as [[op|err] c1];
    [|reflexivity].
  cbn [d cloud calls]. fold createWait.
  destruct (computeSharedOperationWait _ _ _ _ _ _) as [[e|] c2];
    rewrite <- app_assoc; reflexivity.
Qed.

Lemma Update_cases s :
  match getRegion pkg (d s) meta with
  | Err e => Update s = (Err e, s)
  | Ok region =>
  match getProject pkg (d s) meta with
  | Err e => Update s = (Err e, s)
  | Ok project =>
      let d1 := Partial (d s) true in
      if HasChange (d s) "target" then
        let target_ref := {| compute.Target := GetString (d s) "target" |} in
        let st := SetTargetCall project region (Id (d s)) target_ref in
        match ForwardingRules_SetTarget (clientCompute pkg meta)
                project region (Id (d s)) target_ref (cloud s) with
        | (Err err, c1) =>
            Update s =
            (Err (Errorf "Error updating target: " err),
             mkSt d1 c1 (calls s ++ [st])%list)
        | (Ok op, c1) =>
            let wt := OperationWaitCall op project updateWait in
            match computeOperationWait pkg (clientCompute pkg meta)
                    op project updateWait c1 with
            | (Some e, c2) =>
                Update s = (Err e, mkSt d1 c2 (calls s ++ [st; wt])%list)
            | (None, c2) =>
                Update s =
                Read (mkSt (Partial (SetPartial d1 "target") false) c2
                        (calls s ++ [st; wt])%list)
            end
        end
      else
        Update s = Read (mkSt (Partial d1 false) (cloud s) (calls s))
  end end.
Proof.
  unfold resourceComputeForwardingRuleUpdate.
  unfold bind, with_d, read_d, map_err, call, wait, modify_d, ret.
  destruct (getRegion pkg (d s) meta) as [region|e]; [|reflexivity].
  destruct (getProject pkg (d s) meta) as [project|e]; [|reflexivity].
  cbv beta iota zeta. cbn [d cloud calls].
  change (HasChange (Partial (d s) true) "target")
    with (HasChange (d s) "target").
  destruct (HasChange (d s) "target"); [|reflexivity].
  change (GetString (Partial (d s) true) "target")
    with (GetString (d s) "target").
  change (Id (Partial (d s) true)) with (Id (d s)).
  destruct (ForwardingRules_SetTarget _ _ _ _ _ _) as [[op|err] c1];
    [|reflexivity].
  cbn [d cloud calls]. fold updateWait.
  destruct (computeOperationWait _ _ _ _ _ _) as [[e|] c2];
    cbn [d cloud calls]; rewrite <- app_assoc; reflexivity.
Qed.

Lemma Delete_cases s :
  match getRegion pkg (d s) meta with
  | Err e => Delete s = (Err e, s)
  | Ok region =>
  match getProject pkg (d s) meta with
  | Err e => Delete s = (Err e, s)
  | Ok project =>
      let del := DeleteCall project region (Id (d s)) in
      match ForwardingRules_Delete (clientCompute pkg meta)
              project region (Id (d s)) (cloud s) with
      | (Err err, c1) =>
          Delete s =
          (Err (Errorf "Error deleting ForwardingRule: " err),
           mkSt (d s) c1 (calls s ++ [del])%list)
      | (Ok op, c1) =>
          let wt := OperationWaitCall op project deleteWait in
          match computeOperationWait pkg (clientCompute pkg meta)
                  op project deleteWait c1 with
          | (Some e, c2) =>
              Delete s = (Err e, mkSt (d s) c2 (calls s ++ [del; wt])%list)
          | (None, c2) =>
              Delete s =
              (Ok tt,
               mkSt (SetId (d s) "") c2 (calls s ++ [del; wt])%list)
          end
      end
  end end.
Proof.
  unfold resourceComputeForwardingRuleDelete.
  unfold bind, with_d, read_d, map_err, call, wait, modify_d, ret.
  destruct (getRegion pkg (d s) meta) as [region|e]; [|reflexivity].
  destruct (getProject pkg (d s) meta) as [project|e]; [|reflexivity].
  cbv beta iota zeta.
  destruct (ForwardingRules_Delete _ _ _ _ _) as [[op|err] c1];
    [|reflexivity].
  cbn [d cloud calls]. fold deleteWait.
  destruct (computeOperationWait _ _ _ _ _ _) as [[e|] c2];
    cbn [d cloud calls]; rewrite <- app_assoc; reflexivity.
Qed.
End HandlerFacts.

(** Case analysis on a closed form: destructs the scrutinees one after
    the other, remembering each outcome. *)
Ltac cases_in H :=
  repeat first
    [ progress cbv zeta in H
    | match type of H with
      | context [match ?x with _ => _ end] => destruct x eqn:?
      end ].

(** ** What a run emits, and what Read leaves behind *)

Section Runs.
Context {Cloud : Type}.
Variable pkg : Package Cloud.
Variable meta : Config pkg.

Abbreviation Read := (resourceComputeForwardingRuleRead pkg meta).
Abbreviation Create := (resourceComputeForwardingRuleCreate pkg meta).
Abbreviation Update := (resourceComputeForwardingRuleUpdate pkg meta).
Abbreviation Delete := (resourceComputeForwardingRuleDelete pkg meta).


Lemma emitted_app {A} (m : M Cloud A) s r s' new :
  m s = (r, s') -> calls s' = (calls s ++ new)%list -> emitted m s = new.
Proof.
  intros Hm Hc. unfold emitted. rewrite Hm. cbn [snd]. rewrite Hc.
  by rewrite drop_app_length.
Qed.


Lemma typeOf_string_keys d0 :
  rd_schema d0 = forwardingRuleSchema ->
  Forall (fun key => typeOf d0 key = Some TypeString)
    [ "name"; "target"; "backend_service"; "description";
      "load_balancing_scheme"; "network"; "network_tier"; "port_range";
      "project"; "region"; "subnetwork"; "ip_address"; "ip_protocol";
      "self_link" ]
  /\ typeOf d0 "ports" = Some TypeSet.
Proof.
  intros Hs. unfold typeOf. rewrite Hs.
  split; [repeat constructor|]; vm_compute; reflexivity.
Qed.

Lemma setAll_refreshed region project frule d0 :
  rd_schema d0 = forwardingRuleSchema ->
  Reconciled pkg region project frule
    (setAll (refreshed pkg region project frule) d0)
  /\ rd_id (setAll (refreshed pkg region project frule) d0) = rd_id d0.
Proof.
  intros Hs. destruct (typeOf_string_keys d0 Hs) as [Hstr Hset].
  repeat match goal with
  | H : Forall _ (_ :: _) |- _ => apply Forall_cons in H as [? H]
  end.
  unfold setAll, refreshed. cbn [foldl fst snd].
  repeat
    (match goal with
     | |- context [d_Set ?d1 ?key (VString ?x)] =>
         rewrite (d_Set_string d1 key x)
           by (rewrite ?typeOf_writeSet; assumption)
     | |- context [d_Set ?d1 ?key (VList ?x)] =>
         rewrite (d_Set_list d1 key x)
           by (rewrite ?typeOf_writeSet; assumption)
     end; cbn [fst]).
  split; [|reflexivity].
  unfold Reconciled.
  repeat split;
    repeat first
      [ apply Get_writeSet_eq
      | rewrite Get_writeSet_ne by discriminate ].
Qed.

Lemma Read_appends s :
  exists new,
    calls (Read s).2 = (calls s ++ new)%list /\
    (new = [] \/
     exists project region, new = [GetCall project region (Id (d s))]).
Proof.
  pose proof (Read_cases pkg meta s) as H. cases_in H;
    try (unfold notFoundOutcome in H;
         destruct (handleNotFoundError _ _ _ _) as [d' oe]);
    rewrite H; cbn [snd calls];
    first [ by eauto 10 | exists []; by rewrite app_nil_r; auto ].
Qed.

Lemma Read_emitted s :
  emitted Read s = [] \/
  exists project region,
    emitted Read s = [GetCall project region (Id (d s))].
Proof.
  destruct (Read_appends s) as (new & Hc & Hnew).
  unfold emitted. rewrite Hc, drop_app_length.
  destruct Hnew as [->|(p & r & ->)]; eauto.
Qed.

(** A handler that ends in Read from [s1], where [s1] extends the trace
    of [s] by [pre], emits [pre] followed by what Read emits. *)
Lemma emitted_then_Read (m : M Cloud unit) s s1 pre :
  m s = Read s1 -> calls s1 = (calls s ++ pre)%list ->
  emitted m s = (pre ++ emitted Read s1)%list.
Proof.
  intros Hm Hc. destruct (Read_appends s1) as (new & Hn & _).
  unfold emitted. rewrite Hm, Hn, drop_app_length, Hc, <- app_assoc.
  by rewrite drop_app_length.
Qed.

Lemma Read_emits_no_mutation s :
  Forall (fun ev => mutating ev = false) (emitted Read s).
Proof.
  destruct (Read_emitted s) as [->|(p & r & ->)]; repeat constructor.
Qed.

(** What Create emits: nothing when a lookup fails, otherwise the insert
    request first and nothing mutating after it. *)
Lemma Create_emitted s :
  emitted Create s = [] \/
  exists network subnetwork region project rest,
    ParseNetworkFieldValue pkg (GetString (d s) "network") (d s) meta
      = Ok network /\
    ParseSubnetworkFieldValue pkg (GetString (d s) "subnetwork") (d s)
      meta = Ok subnetwork /\
    getRegion pkg (d s) meta = Ok region /\
    getProject pkg (d s) meta = Ok project /\
    emitted Create s =
      InsertCall project region (insertRequest pkg network subnetwork (d s))
      :: rest /\
    Forall (fun ev => mutating ev = false) rest.
Proof.
  pose proof (Create_cases pkg meta s) as H. cases_in H;
    try (left; eapply emitted_app; [exact H|by rewrite app_nil_r]);
    right; do 4 eexists; eexists; (do 4 (split; [reflexivity|])).
  all: first [ erewrite emitted_then_Read; [|exact H|reflexivity]
             | erewrite emitted_app; [|exact H|reflexivity] ].
  all: split; [reflexivity|].
  all: repeat (apply Forall_cons; split; [reflexivity|]).
  all: first [ apply Read_emits_no_mutation | apply Forall_nil_2 ].
Qed.
End Runs.

(** ** The claims *)

(** C1: the resource definition binds Create, Read, Update and Delete to
    the four handlers of this file, leaves every other handler unset, and
    imports by passing the id through. *)
Theorem resource_binds_four_handlers {Cloud : Type} (pkg : Package Cloud) :
  let r := resourceComputeForwardingRule pkg in
  schema.Create r = Some (resourceComputeForwardingRuleCreate pkg) /\
  schema.Read r = Some (resourceComputeForwardingRuleRead pkg) /\
  schema.Update r = Some (resourceComputeForwardingRuleUpdate pkg) /\
  schema.Delete r = Some (resourceComputeForwardingRuleDelete pkg) /\
  Exists r = None /\ MigrateState r = None /\ CustomizeDiff r = None /\
  Importer r = Some {| State := ImportStatePassthrough |}.
Proof. cbv zeta. repeat split. Qed.

Section Claims.
Context {Cloud : Type}.
Variable pkg : Package Cloud.
Variable meta : Config pkg.

Abbreviation Read := (resourceComputeForwardingRuleRead pkg meta).
Abbreviation Create := (resourceComputeForwardingRuleCreate pkg meta).
Abbreviation Update := (resourceComputeForwardingRuleUpdate pkg meta).
Abbreviation Delete := (resourceComputeForwardingRuleDelete pkg meta).

(** C2: whatever the configuration held by [d], the forwarding rule that
    Create hands to [ForwardingRules.Insert] carries the configured
    name, description, backend service, address, protocol, scheme, tier
    and port range, the items of the ports set, the relative links of
    the parsed network and subnetwork, and the target as a v1
    self-link; it is sent under the resolved project and region. *)
Theorem Create_insert_request_maps_configuration
    s project region frule :
  InsertCall project region frule ∈ emitted Create s ->
  computeBeta.Name frule = GetString (d s) "name" /\
  computeBeta.Description frule = GetString (d s) "description" /\
  computeBeta.BackendService frule = GetString (d s) "backend_service" /\
  computeBeta.IPAddress frule = GetString (d s) "ip_address" /\
  computeBeta.IPProtocol frule = GetString (d s) "ip_protocol" /\
  computeBeta.LoadBalancingScheme frule =
    GetString (d s) "load_balancing_scheme" /\
  computeBeta.NetworkTier frule = GetString (d s) "network_tier" /\
  computeBeta.PortRange frule = GetString (d s) "port_range" /\
  computeBeta.Ports frule = List (GetSet (d s) "ports") /\
  (exists network,
     ParseNetworkFieldValue pkg (GetString (d s) "network") (d s) meta
       = Ok network /\
     computeBeta.Network frule = GlobalRelativeLink pkg network) /\
  (exists subnetwork,
     ParseSubnetworkFieldValue pkg (GetString (d s) "subnetwork") (d s)
       meta = Ok subnetwork /\
     computeBeta.Subnetwork frule =
       RegionalRelativeLink pkg subnetwork) /\
  computeBeta.Target frule =
    ConvertSelfLinkToV1 pkg (GetString (d s) "target") /\
  getProject pkg (d s) meta = Ok project /\
  getRegion pkg (d s) meta = Ok region.
Proof.
  intros Hin.
  destruct (Create_emitted pkg meta s)
    as [Hnil|(network & subnetwork & region' & project' & rest &
              Hnet & Hsub & Hreg & Hproj & Hem & Hrest)].
  { rewrite Hnil in Hin. by apply elem_of_nil in Hin. }
  rewrite Hem in Hin. apply elem_of_cons in Hin as [Heq|Hin].
  - injection Heq as -> -> ->. unfold insertRequest; cbn.
    rewrite copyPorts_id. repeat split; eauto.
  - rewrite Forall_forall in Hrest. by apply Hrest in Hin.
Qed.

(** C3: when the remote Get succeeds, Read returns nil and leaves in
    [d] the fetched rule: each refreshed attribute reads back as the
    corresponding field ([backend_service] and [self_link] as v1
    self-links, [ports] as the set of the fetched ports), and [project]
    and [region] as the resolved ones. *)
Theorem Read_reconciles_remote_state s region project frule c' :
  rd_schema (d s) = forwardingRuleSchema ->
  getRegion pkg (d s) meta = Ok region ->
  getProject pkg (d s) meta = Ok project ->
  ForwardingRules_Get (clientComputeBeta pkg meta) project region
    (Id (d s)) (cloud s) = (Ok frule, c') ->
  exists s',
    Read s = (Ok tt, s') /\
    Reconciled pkg region project frule (d s').
Proof.
  intros Hs Hreg Hproj Hget.
  pose proof (Read_cases pkg meta s) as H.
  rewrite Hreg, Hproj in H. cbv zeta in H. rewrite Hget in H.
  eexists; split; [exact H|]. cbn [d].
  by apply setAll_refreshed.
Qed.


(** What Update emits once region and project are resolved. *)
Lemma Update_emitted s region project :
  getRegion pkg (d s) meta = Ok region ->
  getProject pkg (d s) meta = Ok project ->
  if HasChange (d s) "target" then
    exists rest,
      emitted Update s =
        SetTargetCall project region (Id (d s))
          {| compute.Target := GetString (d s) "target" |} :: rest /\
      Forall (fun ev => mutating ev = false) rest
  else
    Update s =
      Read (mkSt (Partial (Partial (d s) true) false) (cloud s) (calls s))
    /\ Forall (fun ev => mutating ev = false) (emitted Update s).
Proof.
  intros Hreg Hproj. pose proof (Update_cases pkg meta s) as H.
  rewrite Hreg, Hproj in H. cases_in H.
  all: try (split; [exact H|]).
  all: try eexists.
  all: first [ erewrite emitted_then_Read; [|exact H|reflexivity]
             | erewrite emitted_then_Read;
                 [|exact H|by rewrite app_nil_r]
             | erewrite emitted_app; [|exact H|reflexivity] ].
  all: try (split; [reflexivity|]).
  all: repeat (apply Forall_cons; split; [reflexivity|]).
  all: first [ apply Read_emits_no_mutation | apply Forall_nil_2 ].
Qed.

(** C4, amended: once Update has resolved region and project, it sends
    the SetTarget request, carrying the newly configured target, when
    the target has changed and only then; with an unchanged target it
    emits no mutating request at all and goes on to re-read. *)
Theorem Update_SetTarget_iff_target_changed s region project :
  getRegion pkg (d s) meta = Ok region ->
  getProject pkg (d s) meta = Ok project ->
  let st :=
    SetTargetCall project region (Id (d s))
      {| compute.Target := GetString (d s) "target" |} in
  (st ∈ emitted Update s <-> HasChange (d s) "target" = true) /\
  (forall ev, ev ∈ emitted Update s -> isSetTarget ev = true -> ev = st) /\
  (HasChange (d s) "target" = false ->
   Forall (fun ev => mutating ev = false) (emitted Update s) /\
   Update s =
     Read (mkSt (Partial (Partial (d s) true) false) (cloud s) (calls s))).
Proof.
  intros Hreg Hproj st.
  pose proof (Update_emitted s region project Hreg Hproj) as H.
  destruct (HasChange (d s) "target").
  - destruct H as (rest & Hem & Hrest). rewrite Hem.
    rewrite Forall_forall in Hrest.
    split; [split; [done|intros _; apply list_elem_of_here]|].
    split; [|done].
    intros ev [->|Hin]%elem_of_cons Hst; [done|].
    apply Hrest in Hin. destruct ev; discriminate.
  - destruct H as [Hrd Hall].
    pose proof (proj1 (Forall_forall _ _) Hall) as Hev.
    split; [split; [|done]|split; [|intros _; by split]].
    + intros Hin. by apply Hev in Hin.
    + intros ev Hin Hst. apply Hev in Hin. destruct ev; discriminate.
Qed.

(** C5, amended: once the insert, or the set-target, has been accepted
    and the wait on its operation has succeeded, Create and Update end
    by running Read on the state reached (Update also does when there
    was nothing to change). So when the Get of that Read succeeds, the
    handler returns nil with [d] showing the fetched rule, not the
    request; and when it fails, the handler's result and [d] are those
    the not-found handler decides on the resource data as they were
    before Read, no attribute having been refreshed. *)
Theorem Create_and_Update_finish_with_Read s :
  (forall network subnetwork region project op c1 c2,
     ParseNetworkFieldValue pkg (GetString (d s) "network") (d s) meta
       = Ok network ->
     ParseSubnetworkFieldValue pkg (GetString (d s) "subnetwork") (d s)
       meta = Ok subnetwork ->
     getRegion pkg (d s) meta = Ok region ->
     getProject pkg (d s) meta = Ok project ->
     let frule := insertRequest pkg network subnetwork (d s) in
     ForwardingRules_Insert (clientComputeBeta pkg meta) project region
       frule (cloud s) = (Ok op, c1) ->
     computeSharedOperationWait pkg (clientCompute pkg meta) op project
       createWait c1 = (None, c2) ->
     let s1 :=
       mkSt (SetId (d s) (GetString (d s) "name")) c2
         (calls s ++
          [InsertCall project region frule;
           SharedOperationWaitCall op project createWait])%list in
     Create s = Read s1 /\
     (forall region' project' remote c3,
        rd_schema (d s) = forwardingRuleSchema ->
        getRegion pkg (d s1) meta = Ok region' ->
        getProject pkg (d s1) meta = Ok project' ->
        ForwardingRules_Get (clientComputeBeta pkg meta) project' region'
          (GetString (d s) "name") c2 = (Ok remote, c3) ->
        exists s',
          Create s = (Ok tt, s') /\
          Reconciled pkg region' project' remote (d s')) /\
     (forall region' project' err c3,
        getRegion pkg (d s1) meta = Ok region' ->
        getProject pkg (d s1) meta = Ok project' ->
        ForwardingRules_Get (clientComputeBeta pkg meta) project' region'
          (GetString (d s) "name") c2 = (Err err, c3) ->
        Create s =
          notFoundOutcome pkg err s1 c3
            (GetCall project' region' (GetString (d s) "name")))) /\
  (forall region project,
     getRegion pkg (d s) meta = Ok region ->
     getProject pkg (d s) meta = Ok project ->
     (forall op c1 c2,
        HasChange (d s) "target" = true ->
        let target_ref :=
          {| compute.Target := GetString (d s) "target" |} in
        ForwardingRules_SetTarget (clientCompute pkg meta) project
          region (Id (d s)) target_ref (cloud s) = (Ok op, c1) ->
        computeOperationWait pkg (clientCompute pkg meta) op project
          updateWait c1 = (None, c2) ->
        let s1 :=
          mkSt (Partial (SetPartial (Partial (d s) true) "target") false)
            c2
            (calls s ++
             [SetTargetCall project region (Id (d s)) target_ref;
              OperationWaitCall op project updateWait])%list in
        Update s = Read s1 /\
        (forall region' project' remote c3,
           rd_schema (d s) = forwardingRuleSchema ->
           getRegion pkg (d s1) meta = Ok region' ->
           getProject pkg (d s1) meta = Ok project' ->
           ForwardingRules_Get (clientComputeBeta pkg meta) project'
             region' (Id (d s)) c2 = (Ok remote, c3) ->
           exists s',
             Update s = (Ok tt, s') /\
             Reconciled pkg region' project' remote (d s')) /\
        (forall region' project' err c3,
           getRegion pkg (d s1) meta = Ok region' ->
           getProject pkg (d s1) meta = Ok project' ->
           ForwardingRules_Get (clientComputeBeta pkg meta) project'
             region' (Id (d s)) c2 = (Err err, c3) ->
           Update s =
             notFoundOutcome pkg err s1 c3
               (GetCall project' region' (Id (d s))))) /\
     (HasChange (d s) "target" = false ->
      Update s =
        Read (mkSt (Partial (Partial (d s) true) false) (cloud s)
                (calls s)))).
Proof.
  split.
  - intros network subnetwork region project op c1 c2
      Hnet Hsub Hreg Hproj frule Hins Hwait s1.
    pose proof (Create_cases pkg meta s) as H.
    rewrite Hnet, Hsub, Hreg, Hproj in H. cbv zeta in H.
    fold frule in H. rewrite Hins, Hwait in H.
    split; [exact H|]. split.
    + intros region' project' remote c3 Hs Hreg' Hproj' Hget.
      rewrite H.
      pose proof (Read_cases pkg meta s1) as H1.
      rewrite Hreg', Hproj' in H1. cbv zeta in H1.
      change (Id (d s1)) with (GetString (d s) "name") in H1.
      change (cloud s1) with c2 in H1. rewrite Hget in H1.
      eexists; split; [exact H1|]. cbn [d].
      by apply setAll_refreshed.
    + intros region' project' err c3 Hreg' Hproj' Hget.
      rewrite H.
      pose proof (Read_cases pkg meta s1) as H1.
      rewrite Hreg', Hproj' in H1. cbv zeta in H1.
      change (Id (d s1)) with (GetString (d s) "name") in H1.
      change (cloud s1) with c2 in H1. rewrite Hget in H1.
      exact H1.
  - intros region project Hreg Hproj.
    pose proof (Update_cases pkg meta s) as H.
    rewrite Hreg, Hproj in H. cbv zeta in H. split.
    + intros op c1 c2 Hch target_ref Hst Hwait s1.
      rewrite Hch in H. fold target_ref in H.
      rewrite Hst, Hwait in H.
      split; [exact H|]. split.
      * intros region' project' remote c3 Hs Hreg' Hproj' Hget.
        rewrite H.
        pose proof (Read_cases pkg meta s1) as H1.
        rewrite Hreg', Hproj' in H1. cbv zeta in H1.
        change (Id (d s1)) with (Id (d s)) in H1.
        change (cloud s1) with c2 in H1. rewrite Hget in H1.
        eexists; split; [exact H1|]. cbn [d].
        by apply setAll_refreshed.
      * intros region' project' err c3 Hreg' Hproj' Hget.
        rewrite H.
        pose proof (Read_cases pkg meta s1) as H1.
        rewrite Hreg', Hproj' in H1. cbv zeta in H1.
        change (Id (d s1)) with (Id (d s)) in H1.
        change (cloud s1) with c2 in H1. rewrite Hget in H1.
        exact H1.
    + intros Hch. by rewrite Hch in H.
Qed.

(** C6: Create stores the configured name as the resource id right
    after an accepted insert and before it waits. If the insert is
    refused, Create returns the wrapped error and [d] is as it was; if
    the insert is accepted and the wait fails, Create returns the wait's
    error and the id is already the configured name; if the wait
    succeeds, Read starts with that id. *)
Theorem Create_stores_id_before_waiting
    s network subnetwork region project :
  ParseNetworkFieldValue pkg (GetString (d s) "network") (d s) meta
    = Ok network ->
  ParseSubnetworkFieldValue pkg (GetString (d s) "subnetwork") (d s)
    meta = Ok subnetwork ->
  getRegion pkg (d s) meta = Ok region ->
  getProject pkg (d s) meta = Ok project ->
  let frule := insertRequest pkg network subnetwork (d s) in
  let ins := InsertCall project region frule in
  let named := SetId (d s) (GetString (d s) "name") in
  Id named = GetString (d s) "name" /\
  (forall err c1,
     ForwardingRules_Insert (clientComputeBeta pkg meta) project region
       frule (cloud s) = (Err err, c1) ->
     Create s =
       (Err (Errorf "Error creating ForwardingRule: " err),
        mkSt (d s) c1 (calls s ++ [ins])%list)) /\
  (forall op c1,
     ForwardingRules_Insert (clientComputeBeta pkg meta) project region
       frule (cloud s) = (Ok op, c1) ->
     let wt := SharedOperationWaitCall op project createWait in
     (forall e c2,
        computeSharedOperationWait pkg (clientCompute pkg meta) op
          project createWait c1 = (Some e, c2) ->
        Create s = (Err e, mkSt named c2 (calls s ++ [ins; wt])%list)) /\
     (forall c2,
        computeSharedOperationWait pkg (clientCompute pkg meta) op
          project createWait c1 = (None, c2) ->
        Create s = Read (mkSt named c2 (calls s ++ [ins; wt])%list))).
Proof.
  intros Hnet Hsub Hreg Hproj frule ins named.
  pose proof (Create_cases pkg meta s) as H.
  rewrite Hnet, Hsub, Hreg, Hproj in H. cbv zeta in H.
  fold frule in H. fold ins in H.
  split; [reflexivity|]. split.
  - intros err c1 Hins. by rewrite Hins in H.
  - intros op c1 Hins wt. rewrite Hins in H. fold wt in H.
    split; intros; by match goal with
                      | Hw : computeSharedOperationWait _ _ _ _ _ _ = _
                        |- _ => rewrite Hw in H
                      end.
Qed.

(** C7: Delete returns nil exactly when the Delete request is accepted
    and the wait on its operation succeeds, and then the id is the empty
    string; on each error path (region, project, refused request, failed
    wait) it returns that error, the refusal wrapped, and leaves [d] as
    it was. *)
Theorem Delete_clears_id_iff_success s r s' :
  Delete s = (r, s') ->
  (r = Ok tt <->
   exists region project op c1,
     getRegion pkg (d s) meta = Ok region /\
     getProject pkg (d s) meta = Ok project /\
     ForwardingRules_Delete (clientCompute pkg meta) project region
       (Id (d s)) (cloud s) = (Ok op, c1) /\
     computeOperationWait pkg (clientCompute pkg meta) op project
       deleteWait c1 = (None, cloud s')) /\
  (r = Ok tt -> Id (d s') = "" /\ d s' = SetId (d s) "") /\
  (forall e, r = Err e ->
     d s' = d s /\
     (getRegion pkg (d s) meta = Err e \/
      (exists region,
         getRegion pkg (d s) meta = Ok region /\
         getProject pkg (d s) meta = Err e) \/
      (exists region project err c1,
         getRegion pkg (d s) meta = Ok region /\
         getProject pkg (d s) meta = Ok project /\
         ForwardingRules_Delete (clientCompute pkg meta) project region
           (Id (d s)) (cloud s) = (Err err, c1) /\
         e = Errorf "Error deleting ForwardingRule: " err) \/
      (exists region project op c1 c2,
         getRegion pkg (d s) meta = Ok region /\
         getProject pkg (d s) meta = Ok project /\
         ForwardingRules_Delete (clientCompute pkg meta) project region
           (Id (d s)) (cloud s) = (Ok op, c1) /\
         computeOperationWait pkg (clientCompute pkg meta) op project
           deleteWait c1 = (Some e, c2)))).
Proof.
  intros Hrun. pose proof (Delete_cases pkg meta s) as H.
  cases_in H; rewrite Hrun in H; injection H as -> ->; cbn [d cloud].
  all: repeat apply conj; try done.
  all: try (intros (?&?&?&?&?&?&?&?); congruence).
  all: try (intros ? [= <-]; split; [done|]).
  all: eauto 15.
Qed.

(** C8: the schema declares [ports] as a set of strings of at most five
    items; hence, for an accepted configuration, the ports set has at
    most five elements and so has the ports slice of the request
    Create sends. *)
Theorem Create_sends_at_most_five_ports s project region frule :
  rd_schema (d s) = forwardingRuleSchema ->
  accepted (d s) ->
  InsertCall project region frule ∈ emitted Create s ->
  (exists sch,
     forwardingRuleSchema !! "ports" = Some sch /\
     Type_ sch = TypeSet /\ Elem sch = Some TypeString /\
     MaxItems sch = 5) /\
  (Len (GetSet (d s) "ports") <= 5)%nat /\
  (List.length (computeBeta.Ports frule) <= 5)%nat.
Proof.
  intros Hs Hacc Hin.
  assert (exists sch,
     forwardingRuleSchema !! "ports" = Some sch /\
     Type_ sch = TypeSet /\ Elem sch = Some TypeString /\
     MaxItems sch = 5) as Hsch.
  { eexists. split; [vm_compute; reflexivity|]. by repeat split. }
  split; [exact Hsch|]. destruct Hsch as (sch & Hl & _ & _ & Hmax).
  assert (Len (GetSet (d s) "ports") <= 5)%nat as Hlen.
  { unfold accepted in Hacc. rewrite Hs in Hacc.
    specialize (Hacc "ports" sch Hl). cbv beta in Hacc.
    unfold GetSet, checkMaxItems in *.
    destruct (Get (d s) "ports") as [x|l|X];
      [unfold Len; rewrite size_empty; lia..|].
    apply bool_decide_eq_true_1 in Hacc. rewrite Hmax in Hacc.
    destruct Hacc as [Hz|Hle]; [discriminate|exact Hle]. }
  split; [exact Hlen|].
  destruct (Create_emitted pkg meta s)
    as [Hnil|(network & subnetwork & region' & project' & rest &
              _ & _ & _ & _ & Hem & Hrest)].
  { rewrite Hnil in Hin. by apply elem_of_nil in Hin. }
  rewrite Hem in Hin. apply elem_of_cons in Hin as [Heq|Hin].
  - injection Heq as -> -> ->. unfold insertRequest.
    cbn [computeBeta.Ports]. by rewrite copyPorts_id, length_List.
  - rewrite Forall_forall in Hrest. by apply Hrest in Hin.
Qed.
End Claims.

(** ** The claims on the in-memory cloud *)

Module MockRuns.
Import Mock.

(** Create, run on [planned] against an empty project, sends
    [plannedRequest]. *)
Lemma planned_emits_insert :
  InsertCall "p" "r" plannedRequest
  ∈ emitted (resourceComputeForwardingRuleCreate healthy tt)
      (start planned ∅).
Proof. vm_compute. apply list_elem_of_here. Qed.

(** [planned] has two ports, within the bound of the schema. *)
Lemma planned_accepted : accepted planned.
Proof. apply (bool_decide_unpack _). vm_compute. reflexivity. Qed.

(** C2 on [planned]: the request carries the planned name, target and
    ports. *)
Lemma Create_insert_request_witness :
  InsertCall "p" "r" plannedRequest
  ∈ emitted (resourceComputeForwardingRuleCreate healthy tt)
      (start planned ∅) /\
  computeBeta.Name plannedRequest = GetString planned "name" /\
  computeBeta.Ports plannedRequest = List (GetSet planned "ports") /\
  computeBeta.Target plannedRequest = GetString planned "target".
Proof.
  split; [exact planned_emits_insert|].
  destruct (Create_insert_request_maps_configuration healthy tt
              (start planned ∅) "p" "r" plannedRequest
              planned_emits_insert)
    as (Hname & _ & _ & _ & _ & _ & _ & _ & Hports & _ & _ & Htarget & _).
  exact (conj Hname (conj Hports Htarget)).
Defined.

(** C3 on [settled]: Read brings back [rule1]. *)
Lemma Read_reconciles_witness :
  exists s',
    resourceComputeForwardingRuleRead healthy tt (start settled oneRule)
      = (Ok tt, s') /\
    Reconciled healthy "r" "p" rule1 (d s').
Proof.
  apply (Read_reconciles_remote_state healthy tt (start settled oneRule)
           "r" "p" rule1 oneRule); reflexivity.
Defined.

(** The mock resource data are inputs the SDK can build. *)
Lemma mock_data_wellTyped :
  wellTyped planned /\ wellTyped retargeted /\ wellTyped settled.
Proof.
  repeat split; apply wellTyped_levels; unfold typedLevel;
    apply (bool_decide_unpack _); vm_compute; reflexivity.
Qed.

(** C4 without the proviso fails where the region cannot be resolved:
    the target of [retargeted] has changed, yet Update returns the
    resolution error before any request is sent. *)
Lemma Update_unresolved_region_sends_no_SetTarget :
  HasChange retargeted "target" = true /\
  resourceComputeForwardingRuleUpdate (pkg regionFault) tt
    (start retargeted oneRule)
  = (Err (ErrorString "region is not set"), start retargeted oneRule) /\
  ~ SetTarget_iff_changed (pkg regionFault) tt (start retargeted oneRule).
Proof.
  split; [reflexivity|]. split; [reflexivity|].
  intros [_ Hsend].
  destruct Hsend as (project & region & Hin); [reflexivity|].
  vm_compute in Hin. by apply elem_of_nil in Hin.
Defined.

(** C4, amended, on [retargeted]: the SetTarget request for [pool-b] is
    sent. *)
Lemma Update_SetTarget_witness :
  SetTargetCall "p" "r" "rule-1" {| compute.Target := "pool-b" |}
  ∈ emitted (resourceComputeForwardingRuleUpdate healthy tt)
      (start retargeted oneRule).
Proof.
  destruct (Update_SetTarget_iff_target_changed healthy tt
              (start retargeted oneRule) "r" "p" eq_refl eq_refl)
    as [[_ Hsend] _].
  apply Hsend. reflexivity.
Defined.

(** C5 on [planned] and on [retargeted]: both handlers return nil with
    [d] showing the rule found in the cloud. *)
Lemma Create_and_Update_finish_with_Read_witness :
  (exists s',
     resourceComputeForwardingRuleCreate healthy tt (start planned ∅)
       = (Ok tt, s') /\
     Reconciled healthy "r" "p" plannedRequest (d s')) /\
  (exists s',
     resourceComputeForwardingRuleUpdate healthy tt
       (start retargeted oneRule) = (Ok tt, s') /\
     Reconciled healthy "r" "p" (withTarget "pool-b" rule1) (d s')).
Proof.
  split.
  - destruct (Create_and_Update_finish_with_Read healthy tt
                (start planned ∅)) as [HCreate _].
    destruct (HCreate "" "" "r" "p" (opOf "rule-1")
                {[ "rule-1" := plannedRequest ]}
                {[ "rule-1" := plannedRequest ]})
      as (_ & Hrec & _); [reflexivity..|].
    apply (Hrec "r" "p" plannedRequest {[ "rule-1" := plannedRequest ]});
      reflexivity.
  - destruct (Create_and_Update_finish_with_Read healthy tt
                (start retargeted oneRule)) as [_ HUpdate].
    destruct (HUpdate "r" "p" eq_refl eq_refl) as [Hchanged _].
    destruct (Hchanged (opOfV1 "rule-1")
                {[ "rule-1" := withTarget "pool-b" rule1 ]}
                {[ "rule-1" := withTarget "pool-b" rule1 ]})
      as (_ & Hrec & _); [reflexivity..|].
    apply (Hrec "r" "p" (withTarget "pool-b" rule1)
             {[ "rule-1" := withTarget "pool-b" rule1 ]});
      reflexivity.
Defined.

(** C5 without the proviso fails against the lagging project: the
    insert and its wait succeed, the Get of the final Read answers 404,
    and Create returns nil with the id dropped and no attribute
    refreshed, so [d] does not show the stored rule. *)
Lemma Create_succeeds_unreconciled_when_Get_finds_nothing :
  resourceComputeForwardingRuleCreate lagging tt (start planned ∅)
    = (Ok tt, createdUnread) /\
  cloud createdUnread !! "rule-1" = Some plannedRequest /\
  Id (d createdUnread) = "" /\
  rd_set (d createdUnread) = ∅ /\
  ~ Reconciled lagging "r" "p" plannedRequest (d createdUnread) /\
  ~ success_is_reconciled lagging tt (start planned ∅).
Proof.
  assert (resourceComputeForwardingRuleCreate lagging tt (start planned ∅)
          = (Ok tt, createdUnread)) as Hrun by (vm_compute; reflexivity).
  split; [exact Hrun|]. split; [vm_compute; reflexivity|].
  split; [reflexivity|]. split; [reflexivity|]. split.
  - intros (_ & _ & _ & _ & _ & _ & _ & _ & _ & _ & _ & _ & _ & Hproj & _).
    vm_compute in Hproj. discriminate Hproj.
  - intros Hall.
    destruct (Hall createdUnread Hrun)
      as (region & project & remote & c & c' & Hget & _).
    change ((Err notFound, c) = (Ok remote, c')) in Hget.
    discriminate Hget.
Defined.

(** C6 on [planned] with a failing wait: Create returns the wait's
    error and the id is already [rule-1]. *)
Lemma Create_stores_id_witness :
  exists s',
    resourceComputeForwardingRuleCreate (pkg waitFault) tt
      (start planned ∅) = (Err (ErrorString "timeout"), s') /\
    Id (d s') = "rule-1".
Proof.
  destruct (Create_stores_id_before_waiting (pkg waitFault) tt
              (start planned ∅) "" "" "r" "p"
              eq_refl eq_refl eq_refl eq_refl)
    as (_ & _ & Hins).
  destruct (Hins (opOf "rule-1") {[ "rule-1" := plannedRequest ]})
    as [Hwait _]; [reflexivity|].
  eexists. split.
  - apply (Hwait (ErrorString "timeout")
             {[ "rule-1" := plannedRequest ]}); reflexivity.
  - reflexivity.
Defined.

(** Delete, run on [settled], removes the rule from the project. *)
Lemma settled_deleted :
  resourceComputeForwardingRuleDelete healthy tt (start settled oneRule)
  = (Ok tt, afterDelete).
Proof. vm_compute. reflexivity. Qed.

(** C7 on [settled]: the rule is deleted and the id cleared. *)
Lemma Delete_clears_id_witness :
  resourceComputeForwardingRuleDelete healthy tt (start settled oneRule)
  = (Ok tt, afterDelete) /\
  Id (d afterDelete) = "".
Proof.
  split; [exact settled_deleted|].
  destruct (Delete_clears_id_iff_success healthy tt
              (start settled oneRule) (Ok tt) afterDelete settled_deleted)
    as (_ & Hid & _).
  apply Hid. reflexivity.
Defined.

(** C8 on [planned]: two ports are sent. *)
Lemma Create_sends_at_most_five_ports_witness :
  accepted planned /\
  (List.length (computeBeta.Ports plannedRequest) <= 5)%nat.
Proof.
  split; [exact planned_accepted|].
  apply (Create_sends_at_most_five_ports healthy tt (start planned ∅)
           "p" "r" plannedRequest eq_refl planned_accepted
           planned_emits_insert).
Defined.
End MockRuns.

(** * Further properties of the handlers *)

(** ** What [d.Set] leaves alone *)

Lemma sameFrame_refl d0 : sameFrame d0 d0.
Proof. by repeat split. Qed.

Lemma setAll_frame kvs d0 : sameFrame (setAll kvs d0) d0.
Proof.
  unfold setAll. revert d0.
  induction kvs as [|[key v] kvs IH]; intros d0; cbn [foldl].
  - apply sameFrame_refl.
  - destruct (IH (d_Set d0 key v).1) as (? & ? & ? & ? & ? & ?).
    destruct (d_Set_frame d0 key v) as (? & ? & ? & ? & ? & ?).
    unfold sameFrame. cbn [fst snd] in *. repeat split; congruence.
Qed.

Lemma setAll_wellTyped kvs d0 : wellTyped d0 -> wellTyped (setAll kvs d0).
Proof.
  unfold setAll. revert d0.
  induction kvs as [|[key v] kvs IH]; intros d0 Hwt; cbn [foldl]; [done|].
  apply IH. by apply d_Set_wellTyped.
Qed.

Section Further.
Context {Cloud : Type}.
Variable pkg : Package Cloud.
Variable meta : Config pkg.

Abbreviation Read := (resourceComputeForwardingRuleRead pkg meta).
Abbreviation Create := (resourceComputeForwardingRuleCreate pkg meta).
Abbreviation Update := (resourceComputeForwardingRuleUpdate pkg meta).
Abbreviation Delete := (resourceComputeForwardingRuleDelete pkg meta).

(** X1: on resource data of this resource, none of the fifteen [d.Set]
    calls of Read returns an error, so dropping their results loses
    nothing: every key is declared and every value has the declared
    type. *)
Theorem Read_writes_are_all_accepted region project frule :
  Forall
    (fun kv =>
       forall d0, rd_schema d0 = forwardingRuleSchema ->
                  (d_Set d0 kv.1 kv.2).2 = None)
    (refreshed pkg region project frule).
Proof.
  unfold refreshed.
  repeat (apply Forall_cons; split); [..|apply Forall_nil_2].
  all: intros d0 Hs; destruct (typeOf_string_keys d0 Hs) as [Hstr Hset].
  all: repeat match goal with
       | H : Forall _ (_ :: _) |- _ => apply Forall_cons in H as [? H]
       end.
  all: cbn [fst snd].
  all: first [ by rewrite d_Set_string | by rewrite d_Set_list ].
Qed.

(** X2: Read refreshes each attribute of the schema, once, and writes
    no key outside the schema. *)
Theorem Read_refreshes_every_attribute region project frule :
  NoDup (refreshed pkg region project frule).*1 /\
  list_to_set (refreshed pkg region project frule).*1
    = dom forwardingRuleSchema.
Proof.
  unfold refreshed. cbn [fmap list_fmap fst].
  split.
  - apply (bool_decide_unpack _). vm_compute. reflexivity.
  - apply (bool_decide_unpack _). vm_compute. reflexivity.
Qed.

(** X3: Read never sends a mutating request. It sends nothing at all
    when region or project cannot be resolved, and otherwise exactly one
    Get, for the resource id under the resolved project and region. *)
Theorem Read_sends_one_Get_at_most s :
  Forall (fun ev => mutating ev = false) (emitted Read s) /\
  match getRegion pkg (d s) meta, getProject pkg (d s) meta with
  | Ok region, Ok project =>
      emitted Read s = [GetCall project region (Id (d s))]
  | _, _ => emitted Read s = []
  end.
Proof.
  split; [apply Read_emits_no_mutation|].
  pose proof (Read_cases pkg meta s) as H. cases_in H;
    try (unfold notFoundOutcome in H;
         destruct (handleNotFoundError _ _ _ _) as [d' oe]).
  all: first [ eapply emitted_app; [exact H|reflexivity]
             | eapply emitted_app; [exact H|by rewrite app_nil_r] ].
Qed.

(** X4: a Read whose Get succeeds writes attributes and nothing else:
    the id, the schema, the prior state, the planned values and the
    partial-mode bookkeeping of [d] are as before, and [d] stays well
    typed. *)
Theorem Read_writes_only_attributes s region project frule c' :
  getRegion pkg (d s) meta = Ok region ->
  getProject pkg (d s) meta = Ok project ->
  ForwardingRules_Get (clientComputeBeta pkg meta) project region
    (Id (d s)) (cloud s) = (Ok frule, c') ->
  exists s',
    Read s = (Ok tt, s') /\ sameFrame (d s') (d s) /\
    (wellTyped (d s) -> wellTyped (d s')).
Proof.
  intros Hreg Hproj Hget. pose proof (Read_cases pkg meta s) as H.
  rewrite Hreg, Hproj in H. cbv zeta in H. rewrite Hget in H.
  eexists. split; [exact H|]. cbn [d]. split.
  - apply setAll_frame.
  - apply setAll_wellTyped.
Qed.

(** X5: Create sends a request exactly when its four lookups (network,
    subnetwork, region, project) have all succeeded; when it sends
    nothing it has failed, and [d], the remote project and the trace
    are as they were. *)
Theorem Create_sends_only_after_its_lookups s :
  (emitted Create s <> [] <->
   exists network subnetwork region project,
     ParseNetworkFieldValue pkg (GetString (d s) "network") (d s) meta
       = Ok network /\
     ParseSubnetworkFieldValue pkg (GetString (d s) "subnetwork") (d s)
       meta = Ok subnetwork /\
     getRegion pkg (d s) meta = Ok region /\
     getProject pkg (d s) meta = Ok project) /\
  (emitted Create s = [] -> exists e, Create s = (Err e, s)).
Proof.
  pose proof (Create_cases pkg meta s) as H. cases_in H.
  all: first
    [ erewrite emitted_then_Read; [|exact H|reflexivity]
    | erewrite emitted_app; [|exact H|reflexivity]
    | erewrite emitted_app; [|exact H|by rewrite app_nil_r] ].
  all: split; [split|]; try done; eauto 10.
  all: intros (?&?&?&?&?&?&?&?); congruence.
Qed.

(** X6: when the region, or else the project, cannot be resolved, Read,
    Update and Delete return that error and change nothing: no request,
    no write to [d], no partial mode. *)
Theorem unresolved_location_changes_nothing s e :
  getRegion pkg (d s) meta = Err e \/
  (exists region,
     getRegion pkg (d s) meta = Ok region /\
     getProject pkg (d s) meta = Err e) ->
  Read s = (Err e, s) /\ Update s = (Err e, s) /\ Delete s = (Err e, s).
Proof.
  intros Hfail.
  pose proof (Read_cases pkg meta s) as HR.
  pose proof (Update_cases pkg meta s) as HU.
  pose proof (Delete_cases pkg meta s) as HD.
  destruct Hfail as [Hreg|(region & Hreg & Hproj)].
  - rewrite Hreg in HR, HU, HD. done.
  - rewrite Hreg, Hproj in HR, HU, HD. done.
Qed.

(** X7: when the target has changed and the SetTarget request is
    refused, or accepted but its wait fails, Update returns the error
    (the refusal wrapped) without reading the rule back; [d] is left in
    partial mode with no key marked and no attribute written, and the
    trace ends with the failed step. *)
Theorem Update_failure_stays_in_partial_mode s region project :
  getRegion pkg (d s) meta = Ok region ->
  getProject pkg (d s) meta = Ok project ->
  HasChange (d s) "target" = true ->
  let target_ref := {| compute.Target := GetString (d s) "target" |} in
  let st := SetTargetCall project region (Id (d s)) target_ref in
  let partial := Partial (d s) true in
  (rd_partial partial = true /\
   rd_partialMap partial = rd_partialMap (d s) /\
   rd_set partial = rd_set (d s) /\ rd_id partial = rd_id (d s)) /\
  (forall err c1,
     ForwardingRules_SetTarget (clientCompute pkg meta) project region
       (Id (d s)) target_ref (cloud s) = (Err err, c1) ->
     Update s =
       (Err (Errorf "Error updating target: " err),
        mkSt partial c1 (calls s ++ [st])%list)) /\
  (forall op c1 e c2,
     ForwardingRules_SetTarget (clientCompute pkg meta) project region
       (Id (d s)) target_ref (cloud s) = (Ok op, c1) ->
     computeOperationWait pkg (clientCompute pkg meta) op project
       updateWait c1 = (Some e, c2) ->
     Update s =
       (Err e,
        mkSt partial c2
          (calls s ++ [st; OperationWaitCall op project updateWait])%list)).
Proof.
  intros Hreg Hproj Hch target_ref st partial.
  pose proof (Update_cases pkg meta s) as H.
  rewrite Hreg, Hproj in H. cbv zeta in H. rewrite Hch in H.
  fold target_ref in H. fold st in H. fold partial in H.
  split; [by repeat split|]. split.
  - intros err c1 Hst. by rewrite Hst in H.
  - intros op c1 e c2 Hst Hwait. by rewrite Hst, Hwait in H.
Qed.

(** X8: Update either fails before it reads the rule back, emitting no
    Get, or it runs Read on resource data that are out of partial mode,
    with no key marked, and whose id and attribute levels are those it
    was given. *)
Theorem Update_reads_back_out_of_partial_mode s :
  (exists e s',
     Update s = (Err e, s') /\
     Forall (fun ev => match ev with GetCall _ _ _ => False | _ => True end)
       (emitted Update s)) \/
  (exists s1,
     Update s = Read s1 /\
     rd_partial (d s1) = false /\ rd_partialMap (d s1) = ∅ /\
     rd_id (d s1) = rd_id (d s) /\ rd_set (d s1) = rd_set (d s) /\
     rd_diff (d s1) = rd_diff (d s) /\ rd_state (d s1) = rd_state (d s) /\
     rd_schema (d s1) = rd_schema (d s)).
Proof.
  pose proof (Update_cases pkg meta s) as H. cases_in H.
  all: first
    [ right; eexists; split; [exact H|]; by repeat split
    | left; do 2 eexists; split; [exact H|];
      first [ erewrite emitted_app; [|exact H|reflexivity]
            | erewrite emitted_app; [|exact H|by rewrite app_nil_r] ];
      by repeat constructor ].
Qed.

(** X9: the requests of Create come in a fixed order: the insert; then,
    if it was accepted, the wait on the very operation it returned,
    under the project of the insert; then, if the wait succeeded, at
    most one Get, for the rule named as in the request. *)
Theorem Create_requests_in_order s network subnetwork region project :
  ParseNetworkFieldValue pkg (GetString (d s) "network") (d s) meta
    = Ok network ->
  ParseSubnetworkFieldValue pkg (GetString (d s) "subnetwork") (d s)
    meta = Ok subnetwork ->
  getRegion pkg (d s) meta = Ok region ->
  getProject pkg (d s) meta = Ok project ->
  let frule := insertRequest pkg network subnetwork (d s) in
  let ins := InsertCall project region frule in
  match ForwardingRules_Insert (clientComputeBeta pkg meta) project region
          frule (cloud s) with
  | (Err _, _) => emitted Create s = [ins]
  | (Ok op, c1) =>
      let wt := SharedOperationWaitCall op project createWait in
      match computeSharedOperationWait pkg (clientCompute pkg meta) op
              project createWait c1 with
      | (Some _, _) => emitted Create s = [ins; wt]
      | (None, _) =>
          emitted Create s = [ins; wt] \/
          exists project' region',
            emitted Create s =
              [ins; wt;
               GetCall project' region' (computeBeta.Name frule)]
      end
  end.
Proof.
  intros Hnet Hsub Hreg Hproj frule ins.
  pose proof (Create_cases pkg meta s) as H.
  rewrite Hnet, Hsub, Hreg, Hproj in H. cbv zeta in H.
  fold frule in H. fold ins in H.
  destruct (ForwardingRules_Insert _ _ _ _ _) as [[op|err] c1];
    [|eapply emitted_app; [exact H|reflexivity]].
  cbv zeta.
  destruct (computeSharedOperationWait _ _ _ _ _ _) as [[e|] c2];
    [eapply emitted_app; [exact H|reflexivity]|].
  erewrite emitted_then_Read; [|exact H|reflexivity].
  destruct (Read_emitted pkg meta
              (mkSt (SetId (d s) (computeBeta.Name frule)) c2
                 (calls s ++
                  [ins; SharedOperationWaitCall op project createWait])%list))
    as [->|(project' & region' & ->)]; [by left|right; eauto].
Qed.

(** X10: Delete sends nothing but the Delete request for the resource
    id, followed, if the request was accepted, by the wait on the
    operation it returned; it never reads the rule. *)
Theorem Delete_requests_in_order s region project :
  getRegion pkg (d s) meta = Ok region ->
  getProject pkg (d s) meta = Ok project ->
  let del := DeleteCall project region (Id (d s)) in
  match ForwardingRules_Delete (clientCompute pkg meta) project region
          (Id (d s)) (cloud s) with
  | (Err _, _) => emitted Delete s = [del]
  | (Ok op, _) =>
      emitted Delete s = [del; OperationWaitCall op project deleteWait]
  end.
Proof.
  intros Hreg Hproj del. pose proof (Delete_cases pkg meta s) as H.
  rewrite Hreg, Hproj in H. cbv zeta in H. fold del in H.
  destruct (ForwardingRules_Delete _ _ _ _ _) as [[op|err] c1];
    [|eapply emitted_app; [exact H|reflexivity]].
  cbv zeta in H.
  destruct (computeOperationWait _ _ _ _ _ _) as [[e|] c2];
    eapply emitted_app; first [exact H|reflexivity].
Qed.

Lemma Read_targets s : Forall (targets (Id (d s))) (emitted Read s).
Proof.
  destruct (Read_emitted pkg meta s) as [->|(p & r & ->)];
    by repeat constructor.
Qed.

(** X11: no handler sends a request about another rule than its own:
    every request of Read, Update and Delete names the resource id, and
    every request of Create names the configured name. *)
Theorem handlers_touch_only_their_rule s :
  Forall (targets (Id (d s))) (emitted Read s) /\
  Forall (targets (Id (d s))) (emitted Update s) /\
  Forall (targets (Id (d s))) (emitted Delete s) /\
  Forall (targets (GetString (d s) "name")) (emitted Create s).
Proof.
  split; [apply Read_targets|]. split; [|split].
  - pose proof (Update_cases pkg meta s) as H. cases_in H.
    all: first
      [ erewrite emitted_then_Read; [|exact H|reflexivity]
      | erewrite emitted_then_Read; [|exact H|by rewrite app_nil_r]
      | erewrite emitted_app; [|exact H|reflexivity]
      | erewrite emitted_app; [|exact H|by rewrite app_nil_r] ].
    all: repeat (apply Forall_cons; split; [done|]).
    all: cbn [app]; first
      [ apply Forall_nil_2
      | match goal with
        | |- Forall _ (emitted _ ?s1) => exact (Read_targets s1)
        end ].
  - pose proof (Delete_cases pkg meta s) as H. cases_in H.
    all: first
      [ erewrite emitted_app; [|exact H|reflexivity]
      | erewrite emitted_app; [|exact H|by rewrite app_nil_r] ].
    all: by repeat constructor.
  - pose proof (Create_cases pkg meta s) as H. cases_in H.
    all: first
      [ erewrite emitted_then_Read; [|exact H|reflexivity]
      | erewrite emitted_app; [|exact H|reflexivity]
      | erewrite emitted_app; [|exact H|by rewrite app_nil_r] ].
    all: repeat (apply Forall_cons; split; [done|]).
    all: cbn [app]; first
      [ apply Forall_nil_2
      | match goal with
        | |- Forall _ (emitted _ ?s1) => exact (Read_targets s1)
        end ].
Qed.

(** X12: on well-typed resource data of this resource, the request of
    Create shows the stored values themselves: no type assertion falls
    back on a zero value, the ports slice has the elements of the ports
    set, each once, and the network, subnetwork and target attributes
    are strings. *)
Theorem Create_request_shows_stored_values d0 network subnetwork :
  rd_schema d0 = forwardingRuleSchema ->
  wellTyped d0 ->
  let frule := insertRequest pkg network subnetwork d0 in
  Get d0 "name" = VString (computeBeta.Name frule) /\
  Get d0 "description" = VString (computeBeta.Description frule) /\
  Get d0 "backend_service" = VString (computeBeta.BackendService frule) /\
  Get d0 "ip_address" = VString (computeBeta.IPAddress frule) /\
  Get d0 "ip_protocol" = VString (computeBeta.IPProtocol frule) /\
  Get d0 "load_balancing_scheme" =
    VString (computeBeta.LoadBalancingScheme frule) /\
  Get d0 "network_tier" = VString (computeBeta.NetworkTier frule) /\
  Get d0 "port_range" = VString (computeBeta.PortRange frule) /\
  Get d0 "ports" = VSet (list_to_set (computeBeta.Ports frule)) /\
  NoDup (computeBeta.Ports frule) /\
  Get d0 "network" = VString (GetString d0 "network") /\
  Get d0 "subnetwork" = VString (GetString d0 "subnetwork") /\
  Get d0 "target" = VString (GetString d0 "target").
Proof.
  intros Hs Hwt frule.
  destruct (typeOf_string_keys d0 Hs) as [Hstr Hset].
  repeat match goal with
  | H : Forall _ (_ :: _) |- _ => apply Forall_cons in H as [? H]
  end.
  unfold frule, insertRequest.
  cbn [computeBeta.Name computeBeta.Description computeBeta.BackendService
       computeBeta.IPAddress computeBeta.IPProtocol
       computeBeta.LoadBalancingScheme computeBeta.NetworkTier
       computeBeta.PortRange computeBeta.Ports].
  rewrite copyPorts_id. unfold List.
  rewrite list_to_set_elements_L.
  repeat split; first
    [ by apply GetString_exact | by apply GetSet_exact
    | apply NoDup_elements ].
Qed.

(** X13: Create followed by its Read gives back what was configured.
    When every step succeeds and the rule read back agrees with the
    request on the plain fields (ports in any order), Create returns
    nil, the id is the configured name, and each plain attribute reads
    as it did in the configuration. *)
Theorem Create_reads_back_the_configuration
    s network subnetwork region project op c1 c2
    region' project' remote c3 :
  rd_schema (d s) = forwardingRuleSchema ->
  wellTyped (d s) ->
  ParseNetworkFieldValue pkg (GetString (d s) "network") (d s) meta
    = Ok network ->
  ParseSubnetworkFieldValue pkg (GetString (d s) "subnetwork") (d s)
    meta = Ok subnetwork ->
  getRegion pkg (d s) meta = Ok region ->
  getProject pkg (d s) meta = Ok project ->
  let frule := insertRequest pkg network subnetwork (d s) in
  let named := SetId (d s) (GetString (d s) "name") in
  ForwardingRules_Insert (clientComputeBeta pkg meta) project region
    frule (cloud s) = (Ok op, c1) ->
  computeSharedOperationWait pkg (clientCompute pkg meta) op project
    createWait c1 = (None, c2) ->
  getRegion pkg named meta = Ok region' ->
  getProject pkg named meta = Ok project' ->
  ForwardingRules_Get (clientComputeBeta pkg meta) project' region'
    (GetString (d s) "name") c2 = (Ok remote, c3) ->
  agreeOnPlainFields remote frule ->
  exists s',
    Create s = (Ok tt, s') /\
    Id (d s') = GetString (d s) "name" /\
    Forall (fun key => Get (d s') key = Get (d s) key) plainAttributes.
Proof.
  intros Hs Hwt Hnet Hsub Hreg Hproj frule named Hins Hwait
    Hreg' Hproj' Hget Hagree.
  pose proof (Create_cases pkg meta s) as H.
  rewrite Hnet, Hsub, Hreg, Hproj in H. cbv zeta in H.
  fold frule in H. rewrite Hins, Hwait in H.
  change (SetId (d s) (computeBeta.Name frule)) with named in H.
  match type of H with
  | _ = resourceComputeForwardingRuleRead _ _ ?s1 =>
      pose proof (Read_cases pkg meta s1) as H1
  end.
  cbn [d cloud] in H1. rewrite Hreg', Hproj' in H1. cbv zeta in H1.
  change (Id named) with (GetString (d s) "name") in H1.
  rewrite Hget in H1. rewrite H1 in H. clear H1.
  eexists. split; [exact H|]. cbn [d].
  destruct (setAll_refreshed pkg region' project' remote named Hs)
    as [Hrec Hid].
  split; [exact Hid|].
  destruct Hrec as (Hn & _ & _ & Hd & Hl & _ & Ht & Hr & Hp & _ & Ha &
                    Hi & _).
  destruct Hagree as (En & Ed & Ea & Ei & El & Et & Er & Ep).
  unfold frule, insertRequest in En, Ed, Ea, Ei, El, Et, Er, Ep.
  cbn [computeBeta.Name computeBeta.Description computeBeta.IPAddress
       computeBeta.IPProtocol computeBeta.LoadBalancingScheme
       computeBeta.NetworkTier computeBeta.PortRange computeBeta.Ports]
    in En, Ed, Ea, Ei, El, Et, Er, Ep.
  rewrite copyPorts_id in Ep. unfold List in Ep.
  rewrite list_to_set_elements_L in Ep.
  rewrite En in Hn. rewrite Ed in Hd. rewrite Ea in Ha. rewrite Ei in Hi.
  rewrite El in Hl. rewrite Et in Ht. rewrite Er in Hr. rewrite Ep in Hp.
  destruct (typeOf_string_keys (d s) Hs) as [Hstr Hset].
  repeat match goal with
  | H : Forall _ (_ :: _) |- _ => apply Forall_cons in H as [? H]
  end.
  unfold plainAttributes.
  repeat (apply Forall_cons; split); [..|apply Forall_nil_2].
  all: first [ rewrite Hn | rewrite Hd | rewrite Ha | rewrite Hi
             | rewrite Hl | rewrite Ht | rewrite Hr | rewrite Hp ].
  all: symmetry; first [ by apply GetString_exact | by apply GetSet_exact ].
Qed.

(** X14: Read is idempotent against a stable remote: when a second Read
    resolves the same region and project and fetches the same rule, it
    returns nil and leaves [d] exactly as the first Read left it. *)
Theorem Read_again_changes_nothing s region project frule c1 c2 :
  rd_schema (d s) = forwardingRuleSchema ->
  getRegion pkg (d s) meta = Ok region ->
  getProject pkg (d s) meta = Ok project ->
  ForwardingRules_Get (clientComputeBeta pkg meta) project region
    (Id (d s)) (cloud s) = (Ok frule, c1) ->
  let s1 := (Read s).2 in
  getRegion pkg (d s1) meta = Ok region ->
  getProject pkg (d s1) meta = Ok project ->
  ForwardingRules_Get (clientComputeBeta pkg meta) project region
    (Id (d s1)) (cloud s1) = (Ok frule, c2) ->
  (Read s).1 = Ok tt /\
  exists s2, Read s1 = (Ok tt, s2) /\ d s2 = d s1.
Proof.
  intros Hs Hreg Hproj Hget s1 Hreg1 Hproj1 Hget1.
  pose proof (Read_cases pkg meta s) as H.
  rewrite Hreg, Hproj in H. cbv zeta in H. rewrite Hget in H.
  pose proof (Read_cases pkg meta s1) as H1.
  rewrite Hreg1, Hproj1 in H1. cbv zeta in H1. rewrite Hget1 in H1.
  split; [by rewrite H|].
  eexists. split; [exact H1|]. cbn [d].
  unfold s1. rewrite H. cbn [snd d].
  set (L := refreshed pkg region project frule).
  assert (forall d0, rd_schema d0 = forwardingRuleSchema ->
            setAll L d0 =
            {| rd_schema := rd_schema d0; rd_state := rd_state d0;
               rd_diff := rd_diff d0;
               rd_set := foldl (fun m kv =>
                           <[kv.1 := match kv.2 with
                                     | VList l => VSet (list_to_set l)
                                     | v => v
                                     end]> m) (rd_set d0) L;
               rd_id := rd_id d0; rd_partial := rd_partial d0;
               rd_partialMap := rd_partialMap d0 |}) as Hform.
  { intros d0 Hs0. destruct (typeOf_string_keys d0 Hs0) as [Hstr Hset].
    repeat match goal with
    | H : Forall _ (_ :: _) |- _ => apply Forall_cons in H as [? H]
    end.
    unfold L, setAll, refreshed. cbn [foldl fst snd].
    repeat
      (match goal with
       | |- context [d_Set ?d1 ?key (VString ?x)] =>
           rewrite (d_Set_string d1 key x)
             by (rewrite ?typeOf_writeSet; assumption)
       | |- context [d_Set ?d1 ?key (VList ?x)] =>
           rewrite (d_Set_list d1 key x)
             by (rewrite ?typeOf_writeSet; assumption)
       end; cbn [fst]).
    reflexivity. }
  rewrite (Hform (d s) Hs).
  rewrite Hform by exact Hs.
  cbn [rd_schema rd_state rd_diff rd_set rd_id rd_partial rd_partialMap].
  f_equal. unfold L, refreshed. cbn [foldl fst snd].
  apply map_eq. intros i. rewrite !lookup_insert.
  repeat (case_decide; [reflexivity|]). reflexivity.
Qed.
Lemma no_mutations (l : list ApiCall) :
  Forall (fun ev => mutating ev = false) l -> mutations l = [].
Proof.
  unfold mutations. induction 1 as [|ev l Hev _ IH]; [done|].
  rewrite filter_cons_False by congruence. exact IH.
Qed.

Lemma mutations_then_Read (pre : list ApiCall) s1 :
  mutations (pre ++ emitted Read s1) = mutations pre.
Proof.
  unfold mutations. rewrite filter_app.
  fold (mutations (emitted Read s1)).
  rewrite (no_mutations _ (Read_emits_no_mutation pkg meta s1)).
  apply app_nil_r.
Qed.

(** X16: a handler sends at most one mutating request per call, and
    only of its own kind: Read none, Create an insert, Update a
    set-target, Delete a delete. *)
Theorem handlers_mutate_at_most_once s :
  mutations (emitted Read s) = [] /\
  (List.length (mutations (emitted Create s)) <= 1)%nat /\
  Forall (fun ev => isInsert ev = true) (mutations (emitted Create s)) /\
  (List.length (mutations (emitted Update s)) <= 1)%nat /\
  Forall (fun ev => isSetTarget ev = true) (mutations (emitted Update s)) /\
  (List.length (mutations (emitted Delete s)) <= 1)%nat /\
  Forall (fun ev => isDelete ev = true) (mutations (emitted Delete s)).
Proof.
  split; [apply no_mutations, Read_emits_no_mutation|].
  assert (forall K (m : M Cloud unit),
            (mutations (emitted m s) = [] \/
             exists ev, mutations (emitted m s) = [ev] /\ K ev = true) ->
            (List.length (mutations (emitted m s)) <= 1)%nat /\
            Forall (fun ev : ApiCall => K ev = true)
              (mutations (emitted m s))) as Hone.
  { intros K m [->|(ev & -> & HK)]; split; cbn [List.length];
      first [lia | by repeat constructor]. }
  split_and!; try apply (Hone isInsert Create);
    try apply (Hone isSetTarget Update); try apply (Hone isDelete Delete).
  - pose proof (Create_cases pkg meta s) as H. cases_in H.
    all: first
      [ erewrite emitted_then_Read; [|exact H|reflexivity];
        rewrite mutations_then_Read
      | erewrite emitted_app; [|exact H|reflexivity]
      | erewrite emitted_app; [|exact H|by rewrite app_nil_r] ].
    all: first [ by left | right; eexists; split; reflexivity ].
  - pose proof (Create_cases pkg meta s) as H. cases_in H.
    all: first
      [ erewrite emitted_then_Read; [|exact H|reflexivity];
        rewrite mutations_then_Read
      | erewrite emitted_app; [|exact H|reflexivity]
      | erewrite emitted_app; [|exact H|by rewrite app_nil_r] ].
    all: first [ by left | right; eexists; split; reflexivity ].
  - pose proof (Update_cases pkg meta s) as H. cases_in H.
    all: first
      [ erewrite emitted_then_Read; [|exact H|reflexivity];
        rewrite mutations_then_Read
      | erewrite emitted_then_Read; [|exact H|by rewrite app_nil_r];
        rewrite mutations_then_Read
      | erewrite emitted_app; [|exact H|reflexivity]
      | erewrite emitted_app; [|exact H|by rewrite app_nil_r] ].
    all: first [ by left | right; eexists; split; reflexivity ].
  - pose proof (Update_cases pkg meta s) as H. cases_in H.
    all: first
      [ erewrite emitted_then_Read; [|exact H|reflexivity];
        rewrite mutations_then_Read
      | erewrite emitted_then_Read; [|exact H|by rewrite app_nil_r];
        rewrite mutations_then_Read
      | erewrite emitted_app; [|exact H|reflexivity]
      | erewrite emitted_app; [|exact H|by rewrite app_nil_r] ].
    all: first [ by left | right; eexists; split; reflexivity ].
  - pose proof (Delete_cases pkg meta s) as H. cases_in H.
    all: first
      [ erewrite emitted_app; [|exact H|reflexivity]
      | erewrite emitted_app; [|exact H|by rewrite app_nil_r] ].
    all: first [ by left | right; eexists; split; reflexivity ].
  - pose proof (Delete_cases pkg meta s) as H. cases_in H.
    all: first
      [ erewrite emitted_app; [|exact H|reflexivity]
      | erewrite emitted_app; [|exact H|by rewrite app_nil_r] ].
    all: first [ by left | right; eexists; split; reflexivity ].
Qed.

(** X17: Delete after Create removes the rule Create inserted. When
    Create succeeds and its Read finds the rule, the resource data it
    returns make Delete ask, first of all, for the deletion of the rule
    named in the insert request. *)
Theorem Delete_after_Create_names_the_inserted_rule
    s network subnetwork region project op c1 c2
    region' project' remote c3 :
  ParseNetworkFieldValue pkg (GetString (d s) "network") (d s) meta
    = Ok network ->
  ParseSubnetworkFieldValue pkg (GetString (d s) "subnetwork") (d s)
    meta = Ok subnetwork ->
  getRegion pkg (d s) meta = Ok region ->
  getProject pkg (d s) meta = Ok project ->
  let frule := insertRequest pkg network subnetwork (d s) in
  let named := SetId (d s) (GetString (d s) "name") in
  ForwardingRules_Insert (clientComputeBeta pkg meta) project region
    frule (cloud s) = (Ok op, c1) ->
  computeSharedOperationWait pkg (clientCompute pkg meta) op project
    createWait c1 = (None, c2) ->
  getRegion pkg named meta = Ok region' ->
  getProject pkg named meta = Ok project' ->
  ForwardingRules_Get (clientComputeBeta pkg meta) project' region'
    (GetString (d s) "name") c2 = (Ok remote, c3) ->
  exists s',
    Create s = (Ok tt, s') /\
    forall region2 project2,
      getRegion pkg (d s') meta = Ok region2 ->
      getProject pkg (d s') meta = Ok project2 ->
      exists rest,
        emitted Delete s' =
          DeleteCall project2 region2 (computeBeta.Name frule) :: rest.
Proof.
  intros Hnet Hsub Hreg Hproj frule named Hins Hwait Hreg' Hproj' Hget.
  pose proof (Create_cases pkg meta s) as H.
  rewrite Hnet, Hsub, Hreg, Hproj in H. cbv zeta in H.
  fold frule in H. rewrite Hins, Hwait in H.
  change (SetId (d s) (computeBeta.Name frule)) with named in H.
  match type of H with
  | _ = resourceComputeForwardingRuleRead _ _ ?s1 =>
      pose proof (Read_cases pkg meta s1) as H1
  end.
  cbn [d cloud] in H1. rewrite Hreg', Hproj' in H1. cbv zeta in H1.
  change (Id named) with (GetString (d s) "name") in H1.
  rewrite Hget in H1. rewrite H1 in H. clear H1.
  destruct (setAll_frame (refreshed pkg region' project' remote) named)
    as [Hid _].
  change (rd_id named) with (computeBeta.Name frule) in Hid.
  revert H Hid.
  generalize (setAll (refreshed pkg region' project' remote) named).
  intros d1 H Hid.
  eexists. split; [exact H|].
  intros region2 project2 Hreg2 Hproj2.
  match goal with
  | |- context [emitted _ ?s2] =>
      pose proof (Delete_cases pkg meta s2) as HD
  end.
  cbn [d cloud calls] in *.
  rewrite Hreg2, Hproj2 in HD. cbv zeta in HD.
  unfold Id in HD. rewrite Hid in HD.
  cases_in HD; eexists; (eapply emitted_app; [exact HD|reflexivity]).
Qed.

End Further.

(** Among the attributes that can be set in the configuration, [target]
    is the one that does not force a new resource. *)
Lemma in_place_attribute_is_target key sch :
  forwardingRuleSchema !! key = Some sch ->
  configurable sch = true ->
  (ForceNew sch = false <-> key = "target").
Proof.
  intros Hlk Hconf.
  assert (map_Forall
    (fun key sch =>
       implb (configurable sch)
         (bool_decide (ForceNew sch = false <-> key = "target")) = true)
    forwardingRuleSchema) as Hall.
  { apply (bool_decide_unpack _). vm_compute. reflexivity. }
  specialize (Hall key sch Hlk). cbv beta in Hall.
  rewrite Hconf in Hall. cbn [implb] in Hall.
  by apply bool_decide_eq_true_1 in Hall.
Qed.

(** X15: Update handles exactly the attributes that can change in
    place. Once region and project are resolved: whenever an attribute
    that can be set in the configuration and does not force a new
    resource has changed, as [d.HasChange] tells, Update sends the
    SetTarget request carrying its new value; Update sends a mutating
    request only when such an attribute, [target], has changed; and
    [target] is the only configurable attribute that does not force a
    new resource. *)
Theorem Update_covers_in_place_changes {Cloud : Type}
    (pkg : Package Cloud) (meta : Config pkg) s region project :
  getRegion pkg (d s) meta = Ok region ->
  getProject pkg (d s) meta = Ok project ->
  (forall key sch,
     forwardingRuleSchema !! key = Some sch ->
     configurable sch = true -> ForceNew sch = false ->
     HasChange (d s) key = true ->
     SetTargetCall project region (Id (d s))
       {| compute.Target := GetString (d s) key |}
     ∈ emitted (resourceComputeForwardingRuleUpdate pkg meta) s) /\
  (mutations (emitted (resourceComputeForwardingRuleUpdate pkg meta) s)
     <> [] ->
   exists sch,
     forwardingRuleSchema !! "target" = Some sch /\
     configurable sch = true /\ ForceNew sch = false /\
     HasChange (d s) "target" = true) /\
  (forall key sch,
     forwardingRuleSchema !! key = Some sch ->
     configurable sch = true ->
     (ForceNew sch = false <-> key = "target")).
Proof.
  intros Hreg Hproj.
  pose proof (Update_emitted pkg meta s region project Hreg Hproj) as H.
  split; [|split].
  - intros key sch Hlk Hconf Hforce Hch.
    apply (in_place_attribute_is_target key sch Hlk Hconf) in Hforce.
    subst key. rewrite Hch in H. destruct H as (rest & -> & _).
    apply list_elem_of_here.
  - intros Hsent. destruct (HasChange (d s) "target").
    + eexists. split; [vm_compute; reflexivity|]. by repeat split.
    + destruct H as [_ Hnone]. by apply no_mutations in Hnone.
  - exact in_place_attribute_is_target.
Qed.

(** ** The further properties on the in-memory cloud *)

Module FurtherRuns.
Import Mock.

Lemma settled_is_found :
  ForwardingRules_Get (clientComputeBeta healthy tt) "p" "r"
    (Id (d (start settled oneRule))) (cloud (start settled oneRule))
  = (Ok rule1, oneRule).
Proof. vm_compute. reflexivity. Qed.

Lemma refreshedOnce_is_found :
  ForwardingRules_Get (clientComputeBeta healthy tt) "p" "r"
    (Id (d refreshedOnce)) (cloud refreshedOnce)
  = (Ok rule1, oneRule).
Proof. vm_compute. reflexivity. Qed.

Lemma planned_is_read_back :
  ForwardingRules_Get (clientComputeBeta healthy tt) "p" "r"
    (GetString planned "name") {[ "rule-1" := plannedRequest ]}
  = (Ok plannedRequest, {[ "rule-1" := plannedRequest ]}).
Proof. vm_compute. reflexivity. Qed.

Lemma planned_is_echoed :
  agreeOnPlainFields plannedRequest (insertRequest healthy "" "" planned).
Proof. repeat split; vm_compute; reflexivity. Qed.

(** X4 on [settled]: Read leaves the id [rule-1] in place. *)
Lemma Read_writes_only_attributes_witness :
  exists s',
    resourceComputeForwardingRuleRead healthy tt (start settled oneRule)
      = (Ok tt, s') /\
    sameFrame (d s') settled /\ (wellTyped settled -> wellTyped (d s')).
Proof.
  exact (Read_writes_only_attributes healthy tt (start settled oneRule)
           "r" "p" rule1 oneRule eq_refl eq_refl settled_is_found).
Defined.

(** X6 with an unresolvable region: the three handlers return the
    resolution error and the state they were given. *)
Lemma unresolved_location_witness :
  let s := start retargeted oneRule in
  let e := ErrorString "region is not set" in
  resourceComputeForwardingRuleRead (pkg regionFault) tt s = (Err e, s) /\
  resourceComputeForwardingRuleUpdate (pkg regionFault) tt s = (Err e, s) /\
  resourceComputeForwardingRuleDelete (pkg regionFault) tt s = (Err e, s).
Proof.
  apply (unresolved_location_changes_nothing (pkg regionFault) tt).
  left. reflexivity.
Defined.

(** X7 with a refused SetTarget: Update returns the wrapped refusal and
    [retargeted] is left in partial mode. *)
Lemma Update_failure_witness :
  resourceComputeForwardingRuleUpdate (pkg requestFault) tt
    (start retargeted oneRule)
  = (Err (ErrorString "Error updating target: backendError"),
     mkSt (Partial retargeted true) oneRule
       [SetTargetCall "p" "r" "rule-1" {| compute.Target := "pool-b" |}]).
Proof.
  destruct (Update_failure_stays_in_partial_mode (pkg requestFault) tt
              (start retargeted oneRule) "r" "p" eq_refl eq_refl eq_refl)
    as (_ & Hrefused & _).
  apply (Hrefused backendError oneRule). reflexivity.
Defined.

(** X9 on [planned]: insert, wait, then at most a Get for [rule-1]. *)
Lemma Create_requests_in_order_witness :
  let ins := InsertCall "p" "r" (insertRequest healthy "" "" planned) in
  let wt := SharedOperationWaitCall (opOf "rule-1") "p" createWait in
  let run :=
    emitted (resourceComputeForwardingRuleCreate healthy tt)
      (start planned ∅) in
  run = [ins; wt] \/
  exists project' region', run = [ins; wt; GetCall project' region' "rule-1"].
Proof.
  exact (Create_requests_in_order healthy tt (start planned ∅)
           "" "" "r" "p" eq_refl eq_refl eq_refl eq_refl).
Defined.

(** X10 on [settled]: the Delete request for [rule-1], then its wait. *)
Lemma Delete_requests_in_order_witness :
  emitted (resourceComputeForwardingRuleDelete healthy tt)
    (start settled oneRule)
  = [DeleteCall "p" "r" "rule-1";
     OperationWaitCall (opOfV1 "rule-1") "p" deleteWait].
Proof.
  exact (Delete_requests_in_order healthy tt (start settled oneRule)
           "r" "p" eq_refl eq_refl).
Defined.

(** X12 on [planned]: the request shows the stored name and ports. *)
Lemma Create_request_shows_stored_values_witness :
  let frule := insertRequest healthy "" "" planned in
  Get planned "name" = VString (computeBeta.Name frule) /\
  Get planned "ports" = VSet (list_to_set (computeBeta.Ports frule)).
Proof.
  destruct (Create_request_shows_stored_values healthy planned "" ""
              eq_refl (proj1 MockRuns.mock_data_wellTyped))
    as (Hname & _ & _ & _ & _ & _ & _ & _ & Hports & _).
  exact (conj Hname Hports).
Defined.

(** X13 on [planned]: the mock project returns the rule as inserted, and
    the plain attributes read back as planned. *)
Lemma Create_reads_back_the_configuration_witness :
  exists s',
    resourceComputeForwardingRuleCreate healthy tt (start planned ∅)
      = (Ok tt, s') /\
    Id (d s') = "rule-1" /\
    Forall (fun key => Get (d s') key = Get planned key) plainAttributes.
Proof.
  apply (Create_reads_back_the_configuration healthy tt (start planned ∅)
           "" "" "r" "p" (opOf "rule-1")
           {[ "rule-1" := plannedRequest ]}
           {[ "rule-1" := plannedRequest ]}
           "r" "p" plannedRequest {[ "rule-1" := plannedRequest ]}
           eq_refl (proj1 MockRuns.mock_data_wellTyped)
           eq_refl eq_refl eq_refl eq_refl eq_refl eq_refl
           eq_refl eq_refl planned_is_read_back planned_is_echoed).
Defined.

(** X14 on [settled]: a second Read leaves [d] as the first did. *)
Lemma Read_again_witness :
  exists s2,
    resourceComputeForwardingRuleRead healthy tt refreshedOnce
      = (Ok tt, s2) /\
    d s2 = d refreshedOnce.
Proof.
  apply (Read_again_changes_nothing healthy tt (start settled oneRule)
           "r" "p" rule1 oneRule oneRule eq_refl eq_refl eq_refl
           settled_is_found eq_refl eq_refl refreshedOnce_is_found).
Defined.

(** X15 on [retargeted]: the target has changed, and Update sends the
    SetTarget request for [pool-b]. *)
Lemma Update_covers_in_place_changes_witness :
  HasChange retargeted "target" = true /\
  SetTargetCall "p" "r" "rule-1" {| compute.Target := "pool-b" |}
  ∈ emitted (resourceComputeForwardingRuleUpdate healthy tt)
      (start retargeted oneRule).
Proof.
  split; [reflexivity|].
  destruct (Update_covers_in_place_changes healthy tt
              (start retargeted oneRule) "r" "p" eq_refl eq_refl)
    as (Hsend & _).
  eapply (Hsend "target");
    [vm_compute; reflexivity|reflexivity..].
Defined.

(** X17 on [planned]: after Create, Delete asks for [rule-1]. *)
Lemma Delete_after_Create_witness :
  exists s',
    resourceComputeForwardingRuleCreate healthy tt (start planned ∅)
      = (Ok tt, s') /\
    exists rest,
      emitted (resourceComputeForwardingRuleDelete healthy tt) s'
      = DeleteCall "p" "r" "rule-1" :: rest.
Proof.
  destruct (Delete_after_Create_names_the_inserted_rule healthy tt
              (start planned ∅) "" "" "r" "p" (opOf "rule-1")
              {[ "rule-1" := plannedRequest ]}
              {[ "rule-1" := plannedRequest ]}
              "r" "p" plannedRequest {[ "rule-1" := plannedRequest ]}
              eq_refl eq_refl eq_refl eq_refl eq_refl eq_refl
              eq_refl eq_refl planned_is_read_back)
    as (s' & Hrun & Hdel).
  exists s'. split; [exact Hrun|].
  apply (Hdel "r" "p"); reflexivity.
Defined.
End FurtherRuns.
